(** * A shallow embedding of custom_components/timezonetod/entity.py

    Instants and offsets ([datetime] in UTC, [timedelta]) are whole seconds
    since the epoch, as [Z].  A calendar [date] is a day number [Z] (day 0 is
    1970-01-01), so [date + timedelta(days=1)] is [d + 1] and
    [datetime.combine(d, t)] is [d * 86400 + seconds_of(t)].

    The library functions the module calls, [ZoneInfo(name)] and
    [datetime.fromisoformat(s)], are parameters of the development: a
    [ZoneInfo] lookup that raises [ZoneInfoNotFoundError]/[ValueError] is
    [None], a [fromisoformat] that raises [ValueError] is [None]. *)

From Stdlib Require Import ZArith Lia Bool List Ascii String.
From stdpp Require Import base gmap strings.

Import ListNotations.
Local Open Scope string_scope.
Local Open Scope Z_scope.

(** ** Time zones *)

(** A [tzinfo]: its [str()] and its UTC offsets.  [off_of_utc u] is the
    offset in force at the UTC instant [u] ([astimezone(tz)]); [off_of_local l]
    is the offset [replace(tzinfo=tz)] attaches to the wall-clock reading [l]
    (fold = 0). *)
Record tzinfo := mk_tz {
  tz_name : string;
  off_of_utc : Z -> Z;
  off_of_local : Z -> Z
}.

Definition DAY : Z := 86400.

(** [now_utc.astimezone(tz).date()] *)
Definition local_date (tz : tzinfo) (now_utc : Z) : Z :=
  (now_utc + off_of_utc tz now_utc) / DAY.

(** [local_dt.replace(tzinfo=tz).astimezone(ZoneInfo("UTC"))] *)
Definition to_utc (tz : tzinfo) (local : Z) : Z :=
  local - off_of_local tz local.

(** The UTC zone. *)
Definition UTC : tzinfo := mk_tz "UTC" (fun _ => 0) (fun _ => 0).

(** ** Python's [int(str)] and [str.split(":")] on ASCII text *)

(** Whitespace [int()] skips: space, \t \n \v \f \r and \x1c-\x1f. *)
Definition is_py_space (c : ascii) : bool :=
  let n := nat_of_ascii c in
  (n =? 32)%nat || ((9 <=? n)%nat && (n <=? 13)%nat)
  || ((28 <=? n)%nat && (n <=? 31)%nat).

Definition digit_value (c : ascii) : option Z :=
  let n := nat_of_ascii c in
  if ((48 <=? n)%nat && (n <=? 57)%nat) then Some (Z.of_nat n - 48) else None.

(** Base-10 digits, single underscores allowed between two digits. *)
Fixpoint parse_digits (l : list ascii) (acc : Z) (after_digit : bool)
  : option Z :=
  match l with
  | [] => if after_digit then Some acc else None
  | c :: r =>
      match digit_value c with
      | Some d => parse_digits r (acc * 10 + d) true
      | None =>
          if Ascii.eqb c "_" && after_digit then parse_digits r acc false
          else None
      end
  end.

Fixpoint drop_space (l : list ascii) : list ascii :=
  match l with
  | c :: r => if is_py_space c then drop_space r else l
  | [] => []
  end.

Definition strip (l : list ascii) : list ascii :=
  rev (drop_space (rev (drop_space l))).

(** [int(s)]: [None] where Python raises [ValueError]. *)
Definition py_int (s : string) : option Z :=
  match strip (list_ascii_of_string s) with
  | c :: r =>
      if Ascii.eqb c "-" then option_map Z.opp (parse_digits r 0 false)
      else if Ascii.eqb c "+" then parse_digits r 0 false
      else parse_digits (c :: r) 0 false
  | [] => None
  end.

Fixpoint split_colon_aux (l : list ascii) (cur : list ascii) : list string :=
  match l with
  | [] => [string_of_list_ascii (rev cur)]
  | c :: r =>
      if Ascii.eqb c ":" then string_of_list_ascii (rev cur) :: split_colon_aux r []
      else split_colon_aux r (c :: cur)
  end.

(** [s.split(":")] *)
Definition split_colon (s : string) : list string :=
  split_colon_aux (list_ascii_of_string s) [].

(** [[int(p) for p in parts]]: fails as soon as one field fails. *)
Fixpoint map_int (parts : list string) : option (list Z) :=
  match parts with
  | [] => Some []
  | p :: r =>
      match py_int p with
      | Some n => option_map (cons n) (map_int r)
      | None => None
      end
  end.

(** [datetime.time(h, m, s)], as seconds since midnight; [None] where the
    constructor raises [ValueError]. *)
Definition py_time (h m s : Z) : option Z :=
  if (0 <=? h) && (h <? 24) && (0 <=? m) && (m <? 60) && (0 <=? s) && (s <? 60)
  then Some (h * 3600 + m * 60 + s) else None.

(** The [try] block of [_resolve_time] that builds [t]. *)
Definition parse_time (config_val : string) : option Z :=
  match map_int (split_colon config_val) with
  | Some [h; m] => py_time h m 0
  | Some [h; m; s] => py_time h m s
  | _ => None
  end.

(** ** The sensor *)

(** The solar callback [sun_callback(config_val, ref_date)]; it returns a
    UTC instant or nothing. *)
Definition sun_callback := string -> Z -> option Z.

(** Constructor arguments of [TimezoneTodSensorCore]. *)
Record config := mk_config {
  is_child : bool;
  configured_start : option string;
  configured_end : option string;
  start_offset : Z;
  end_offset : Z;
  start_ref : option string;
  end_ref : option string;
  configured_timezone_str : option string
}.

(** The computed fields of the instance. *)
Record state := mk_state {
  calculated_start_utc : option Z;
  calculated_end_utc : option Z;
  next_update_utc : option Z;
  resolved_timezone_str : option string
}.

(** The fields as [__init__] leaves them. *)
Definition init_state (cfg : config) : state :=
  mk_state None None None (configured_timezone_str cfg).

Definition set_start (v : option Z) (st : state) : state :=
  mk_state v (calculated_end_utc st) (next_update_utc st) (resolved_timezone_str st).
Definition set_end (v : option Z) (st : state) : state :=
  mk_state (calculated_start_utc st) v (next_update_utc st) (resolved_timezone_str st).
Definition set_next (v : option Z) (st : state) : state :=
  mk_state (calculated_start_utc st) (calculated_end_utc st) v (resolved_timezone_str st).
Definition set_tz_str (v : option string) (st : state) : state :=
  mk_state (calculated_start_utc st) (calculated_end_utc st) (next_update_utc st) v.

(** Python truthiness of an optional string. *)
Definition truthy (o : option string) : option string :=
  match o with
  | Some s => if String.eqb s "" then None else Some s
  | None => None
  end.

(** [is_on] *)
Definition is_on (st : state) (now_utc : Z) : bool :=
  match calculated_start_utc st, calculated_end_utc st with
  | Some s, Some e => (s <=? now_utc) && (now_utc <? e)
  | _, _ => false
  end.

(** [_calculate_next_update] *)
Definition calculate_next_update (now_utc : Z) (st : state) : state :=
  match calculated_start_utc st, calculated_end_utc st with
  | Some s, Some e =>
      if now_utc <? s then set_next (Some s) st
      else if now_utc <? e then set_next (Some e) st
      else set_next (Some (s + DAY)) st
  | _, _ => set_next None st
  end.

Definition is_solar (config_val : string) : bool :=
  String.eqb config_val "sunrise" || String.eqb config_val "sunset".

(** [_resolve_time]; [None] where it raises [ValueError]. *)
Definition resolve_time (config_val : string) (ref_date : Z) (tz : tzinfo)
    (sun : option sun_callback) : option Z :=
  if is_solar config_val then
    match sun with
    | None => None
    | Some cb => cb config_val ref_date
    end
  else
    match parse_time config_val with
    | Some t => Some (to_utc tz (ref_date * DAY + t))
    | None => None
    end.

(** [get_window] (inner helper of [update_boundaries]); [None] where it
    raises [ValueError]. *)
Definition get_window (cfg : config) (tz : tzinfo) (sun : option sun_callback)
    (ref_date : Z) : option (Z * Z) :=
  match configured_start cfg, configured_end cfg with
  | Some cs, Some ce =>
      match resolve_time cs ref_date tz sun, resolve_time ce ref_date tz sun with
      | Some s0, Some e0 =>
          let s := s0 + start_offset cfg in
          let e := e0 + end_offset cfg in
          if e <=? s then Some (s, e + DAY) else Some (s, e)
      | _, _ => None
      end
  | _, _ => None
  end.

(** The [for _ in range(365)] loop of [update_boundaries]: [fuel] iterations
    left, the current reference date and candidate window; it returns the
    reference date and candidate it stops at. *)
Fixpoint forward_search (cfg : config) (tz : tzinfo) (sun : option sun_callback)
    (now_utc : Z) (fuel : nat) (ref_date : Z) (w : Z * Z) : option (Z * (Z * Z)) :=
  match fuel with
  | O => Some (ref_date, w)
  | S k =>
      if snd w <=? now_utc then
        match get_window cfg tz sun (ref_date + 1) with
        | Some w' => forward_search cfg tz sun now_utc k (ref_date + 1) w'
        | None => None
        end
      else Some (ref_date, w)
  end.

Definition SEARCH_BOUND : nat := 365.

(** Step 3 of [update_boundaries] (root logic), up to the assignments. *)
Definition root_window (cfg : config) (tz : tzinfo) (sun : option sun_callback)
    (now_utc : Z) : option (Z * Z) :=
  let target_date := local_date tz now_utc in
  match get_window cfg tz sun target_date with
  | None => None
  | Some w0 =>
      match forward_search cfg tz sun now_utc SEARCH_BOUND target_date w0 with
      | None => None
      | Some (current_ref_date, (start_utc, end_utc)) =>
          if now_utc <? start_utc then
            match get_window cfg tz sun (current_ref_date - 1) with
            | None => None
            | Some (prev_start, prev_end) =>
                if (prev_start <=? now_utc) && (now_utc <? prev_end)
                then Some (prev_start, prev_end)
                else Some (start_utc, end_utc)
            end
          else Some (start_utc, end_utc)
      end
  end.

Section Update.

(** [ZoneInfo(key)] and [datetime.fromisoformat(s)]. *)
Variable zoneinfo : string -> option tzinfo.
Variable fromisoformat : string -> option Z.

(** The parent's [start_time_utc]/[end_time_utc] attributes, parsed. *)
Definition parent_bounds (attrs : gmap string string) : option (Z * Z) :=
  match attrs !! "start_time_utc", attrs !! "end_time_utc" with
  | Some start_time_str, Some end_time_str =>
      match fromisoformat start_time_str, fromisoformat end_time_str with
      | Some p_start, Some p_end => Some (p_start, p_end)
      | _, _ => None
      end
  | _, _ => None
  end.

(** [self._configured_timezone_str or str(default_timezone)] *)
Definition root_tz_name (cfg : config) (default_timezone : tzinfo) : string :=
  match truthy (configured_timezone_str cfg) with
  | Some s => s
  | None => tz_name default_timezone
  end.

(** The zone root logic computes in. *)
Definition root_tz (cfg : config) (default_timezone : tzinfo) : tzinfo :=
  match truthy (configured_timezone_str cfg) with
  | Some s =>
      match zoneinfo s with
      | Some z => z
      | None => default_timezone
      end
  | None => default_timezone
  end.

(** [update_boundaries]: the success flag and the fields after the call.
    In child mode the zone looked up from the parent's [timezone] attribute is
    never used afterwards, so only the name assignment is kept. *)
Definition update_boundaries (cfg : config) (now_utc : Z)
    (default_timezone : tzinfo) (sun : option sun_callback)
    (parent_attributes : option (gmap string string)) (st0 : state)
    : bool * state :=
  let st1 :=
    if is_child cfg then st0
    else set_tz_str (Some (root_tz_name cfg default_timezone)) st0 in
  if is_child cfg then
    match parent_attributes with
    | None => (false, st1)
    | Some attrs =>
        if bool_decide (attrs = ∅) then (false, st1) else
        let st2 :=
          match truthy (attrs !! "timezone") with
          | Some parent_tz_str => set_tz_str (Some parent_tz_str) st1
          | None => st1
          end in
        match parent_bounds attrs with
        | None => (false, st2)
        | Some (p_start, p_end) =>
            let ref_s := if bool_decide (start_ref cfg = Some "start") then p_start else p_end in
            let ref_e := if bool_decide (end_ref cfg = Some "start") then p_start else p_end in
            let st3 := set_end (Some (ref_e + end_offset cfg))
                         (set_start (Some (ref_s + start_offset cfg)) st2) in
            if ref_e + end_offset cfg <=? ref_s + start_offset cfg then (false, st3)
            else (true, calculate_next_update now_utc st3)
        end
    end
  else
    let tz := root_tz cfg default_timezone in
    match root_window cfg tz sun now_utc with
    | None => (false, st1)
    | Some (start_utc, end_utc) =>
        (true, calculate_next_update now_utc
                 (set_end (Some end_utc) (set_start (Some start_utc) st1)))
    end.

End Update.

(** ** Concrete configurations (from test.py) *)

Definition root_cfg (s e : string) : config :=
  mk_config false (Some s) (Some e) 0 0 (Some "start") (Some "end") None.

Definition child_cfg (sref : string) (so : Z) (eref : string) (eo : Z) : config :=
  mk_config true None None so eo (Some sref) (Some eref) None.

Definition no_zones : string -> option tzinfo := fun _ => None.

(** A [fromisoformat] that reads [HH:MM] as that time on day 0 (UTC). *)
Definition iso_hhmm (s : string) : option Z :=
  match parse_time s with Some t => Some t | None => None end.

Definition H (h : Z) : Z := h * 3600.

Definition parent_9_17 : gmap string string :=
  <["start_time_utc" := "09:00"]> (<["end_time_utc" := "17:00"]> ∅).

(** A zone with a daylight-saving fall-back: UTC+1 until the instant
    [DST_END] (01:00 UTC of day 10), UTC+0 afterwards; wall-clock readings
    in the repeated hour take the earlier offset (fold = 0). *)
Definition DST_END : Z := 10 * DAY + 3600.

Definition dst_zone : tzinfo :=
  mk_tz "Test/FallBack"
    (fun u => if u <? DST_END then 3600 else 0)
    (fun l => if l <? DST_END + 3600 then 3600 else 0).

(** The 23:45 -> 00:15 root interval, evaluated at noon of the fall-back day. *)
Definition fallback_cfg : config := root_cfg "23:45" "00:15".

Definition fallback_run : bool * state :=
  update_boundaries no_zones iso_hhmm fallback_cfg (10 * DAY + H 12) dst_zone None
    None (init_state fallback_cfg).

(** ** Specification-side notions *)

(** The spec's "2 or 3 colon-separated integer fields within their ranges". *)
Definition time_fields (spec : string) (h m sec : Z) : Prop :=
  (map py_int (split_colon spec) = [Some h; Some m] /\ sec = 0
   \/ map py_int (split_colon spec) = [Some h; Some m; Some sec])
  /\ 0 <= h < 24 /\ 0 <= m < 60 /\ 0 <= sec < 60.

(** Both boundaries set and [end > start], or not both set. *)
Definition window_ok (st : state) : Prop :=
  match calculated_start_utc st, calculated_end_utc st with
  | Some s, Some e => s < e
  | _, _ => True
  end.

(** The reference date the search starts from and its first candidate. *)
Definition search_of (cfg : config) (tz : tzinfo) (sun : option sun_callback)
    (now : Z) (w0 : Z * Z) : option (Z * (Z * Z)) :=
  forward_search cfg tz sun now SEARCH_BOUND (local_date tz now) w0.

(** The anchor a child boundary is measured from: the parent start when the
    reference is ["start"], the parent end otherwise. *)
Definition anchor (r : option string) (p_start p_end : Z) : Z :=
  if bool_decide (r = Some "start") then p_start else p_end.

(** ** Concrete runs *)

(** A root sensor with no start/end configured. *)
Definition unconfigured_cfg : config :=
  mk_config false None None 0 0 (Some "start") (Some "end") None.

(** An 08:00 -> 09:00 root interval whose end is pushed two days later. *)
Definition long_cfg : config :=
  mk_config false (Some "08:00") (Some "09:00") 0 (2 * DAY) (Some "start") (Some "end") None.

(** An 08:00 -> 09:00 root interval shifted 400 days into the past. *)
Definition stale_cfg : config :=
  mk_config false (Some "08:00") (Some "09:00") (-400 * DAY) (-400 * DAY)
    (Some "start") (Some "end") None.

Definition mars_cfg : config :=
  mk_config false (Some "08:00") (Some "09:00") 0 0 (Some "start") (Some "end")
    (Some "Mars/Olympus").

(** ** The Home Assistant wrapper (binary_sensor.py) and the parent
    selector (config_flow.py) *)

(** A state attribute value as these modules write it. *)
Inductive attr_value :=
  | AStr (s : string)
  | ABool (b : bool).

#[global] Instance attr_value_eq_dec : EqDecision attr_value.
Proof. solve_decision. Defined.

(** Python truthiness of an attribute value. *)
Definition attr_truthy (v : attr_value) : bool :=
  match v with
  | AStr s => negb (String.eqb s "")
  | ABool b => b
  end.

(** The view [update_boundaries] has of a state's [attributes]: it only reads
    the string values of [timezone], [start_time_utc] and [end_time_utc]. *)
Definition str_view (attrs : gmap string attr_value) : gmap string string :=
  omap (fun v => match v with AStr x => Some x | ABool _ => None end) attrs.

Definition DOMAIN : string := "timezonetod".

(** The configuration a [TimezoneTodSensor] keeps besides its core: the
    core's constructor arguments (with [parent_entity_id]) and the cached
    [_conf_start_time]/[_conf_end_time]. *)
Record sensor := mk_sensor {
  s_cfg : config;
  s_parent_entity_id : option string;
  s_conf_start_time : string;
  s_conf_end_time : string
}.

(** The mutable part of a [TimezoneTodSensor]: its core's fields, the
    pending point-in-time timer ([_unsub_update], as the instant it fires at)
    and the attributes of the last [async_write_ha_state] ([None] if it never
    wrote; [Some None] if it wrote without attributes). *)
Record wrapper := mk_wrapper {
  w_core : state;
  w_unsub_update : option Z;
  w_written : option (option (gmap string attr_value))
}.

Section Wrapper.

(** [dt.isoformat()] of a UTC instant and [dt.astimezone(tz).isoformat()]. *)
Variable isoformat : Z -> string.
Variable isoformat_in : tzinfo -> Z -> string.

Definition or_default (o : option string) (d : string) : string :=
  match truthy o with Some x => x | None => d end.

(** [extra_state_attributes], with [local_tz = get_default_time_zone()]. *)
Definition extra_state_attributes (sn : sensor) (local_tz : tzinfo) (st : state)
    : option (gmap string attr_value) :=
  match calculated_start_utc st, calculated_end_utc st, next_update_utc st with
  | Some s, Some e, Some n =>
      Some (<["start_time_local" := AStr (isoformat_in local_tz s)]>
           (<["end_time_local" := AStr (isoformat_in local_tz e)]>
           (<["next_update_local" := AStr (isoformat_in local_tz n)]>
           (<["start_time_utc" := AStr (isoformat s)]>
           (<["end_time_utc" := AStr (isoformat e)]>
           (<["next_update_utc" := AStr (isoformat n)]>
           (<["is_child" := ABool (is_child (s_cfg sn))]>
           (<["parent_entity" := AStr (or_default (s_parent_entity_id sn) "No Parent")]>
           (<["timezone" := AStr (or_default (resolved_timezone_str st) "Default (System)")]>
             ∅)))))))))
  | _, _, _ => None
  end.

End Wrapper.


(** The early returns of [_update_and_reschedule]: [None] when it returns
    before calling the core, otherwise the [parent_attributes] it passes. *)
Definition parent_input (sn : sensor)
    (states : string -> option (gmap string attr_value))
    : option (option (gmap string string)) :=
  if is_child (s_cfg sn) then
    match s_parent_entity_id sn with
    | None => None
    | Some pid =>
        match states pid with
        | None => None
        | Some attrs =>
            if bool_decide (attrs !! "start_time_utc" = None) then None
            else Some (Some (str_view attrs))
        end
    end
  else Some None.

(** [_update_and_reschedule]: [now] is [utcnow()], [dtz] the default zone,
    [sun] the [get_sun_dt] wrapper and [states] the [hass.states] lookup. *)
Definition update_and_reschedule
    (zoneinfo : string -> option tzinfo) (fromisoformat : string -> option Z)
    (isoformat : Z -> string) (isoformat_in : tzinfo -> Z -> string)
    (sn : sensor) (now : Z) (dtz : tzinfo) (sun : sun_callback)
    (states : string -> option (gmap string attr_value)) (w : wrapper) : wrapper :=
  match parent_input sn states with
  | None => w
  | Some parent_attrs =>
      let '(success, st') :=
        update_boundaries zoneinfo fromisoformat (s_cfg sn) now dtz (Some sun)
          parent_attrs (w_core w) in
      if success then
        mk_wrapper st' (next_update_utc st')
          (Some (extra_state_attributes isoformat isoformat_in sn dtz st'))
      else mk_wrapper st' (w_unsub_update w) (w_written w)
  end.

(** An entry of the entity registry. *)
Record reg_entry := mk_reg_entry {
  re_entity_id : string;
  re_platform : string
}.

(** [_get_valid_parents]: the [(value, label)] options, in registry order. *)
Definition get_valid_parents (registry : list reg_entry)
    (states : string -> option (gmap string attr_value))
    : list (string * attr_value) :=
  concat (map (fun entry =>
    if String.eqb (re_platform entry) DOMAIN then
      match states (re_entity_id entry) with
      | Some attrs =>
          if bool_decide (attrs !! "is_child" = Some (ABool false)) then
            let label :=
              match attrs !! "friendly_name" with
              | Some v => if attr_truthy v then v else AStr (re_entity_id entry)
              | None => AStr (re_entity_id entry)
              end in
            [(re_entity_id entry, label)]
          else []
      | None => []
      end
    else []) registry).

(** ** Concrete wrapper inputs *)

(** An [isoformat] that renders the instants at 09:00 and 17:00 of day 0 in
    the [HH:MM] form [iso_hhmm] reads back. *)
Definition iso_table (x : Z) : string :=
  if x =? H 9 then "09:00" else if x =? H 17 then "17:00" else "".

Definition iso_table_in (_ : tzinfo) (x : Z) : string := iso_table x.

Definition no_sun : sun_callback := fun _ _ => None.

Definition root_sensor : sensor :=
  mk_sensor (root_cfg "09:00" "17:00") None "09:00" "17:00".


Definition child_sensor : sensor :=
  mk_sensor (child_cfg "start" 0 "end" 0) (Some "binary_sensor.parent") "" "".

Definition init_wrapper (sn : sensor) : wrapper :=
  mk_wrapper (init_state (s_cfg sn)) None None.

(** The state attributes of a root sensor on 09:00 -> 17:00 of day 0. *)
Definition parent_attrs_9_17 : gmap string attr_value :=
  <["friendly_name" := AStr "Office hours"]>
  (<["start_time_utc" := AStr "09:00"]> (<["end_time_utc" := AStr "17:00"]>
  (<["is_child" := ABool false]> ∅))).

Definition states_of (m : gmap string attr_value) (id : string)
    : option (gmap string attr_value) :=
  if String.eqb id "binary_sensor.parent" then Some m else None.

(** ** Evaluations *)

Example py_int_ex1 : py_int " +1_0 " = Some 10. Proof. reflexivity. Qed.
Example py_int_ex2 : py_int "1__0" = None. Proof. reflexivity. Qed.
Example parse_time_ex1 : parse_time "08:00:00" = Some 28800. Proof. reflexivity. Qed.
Example parse_time_ex2 : parse_time "24:00" = None. Proof. reflexivity. Qed.
Example parse_time_ex3 : parse_time "8:5" = Some 29100. Proof. reflexivity. Qed.
Example parse_time_ex4 : parse_time "08:00:00:00" = None. Proof. reflexivity. Qed.

Example get_window_ex1 :
  get_window (root_cfg "22:00" "06:00") UTC None 5 = Some (5 * DAY + H 22, 6 * DAY + H 6).
Proof. reflexivity. Qed.

Example update_night_ex :
  let r := update_boundaries no_zones iso_hhmm (root_cfg "22:00:00" "06:00:00")
             (1 * DAY + H 1) UTC None None (init_state (root_cfg "22:00:00" "06:00:00")) in
  fst r = true /\ calculated_start_utc (snd r) = Some (H 22)
  /\ is_on (snd r) (1 * DAY + H 1) = true.
Proof. vm_compute. auto. Qed.

Example update_child_ex :
  let c := child_cfg "start" 0 "start" 1800 in
  let r := update_boundaries no_zones iso_hhmm c (H 9 + 900) UTC None
             (Some parent_9_17) (init_state c) in
  fst r = true /\ calculated_start_utc (snd r) = Some (H 9)
  /\ calculated_end_utc (snd r) = Some (H 9 + 1800)
  /\ is_on (snd r) (H 9 + 900) = true /\ is_on (snd r) (H 9 + 2100) = false.
Proof. vm_compute. auto. Qed.

Example cap_exhausted_ex :
  update_boundaries no_zones iso_hhmm stale_cfg (H 12) UTC None None (init_state stale_cfg)
  = (true, mk_state (Some ((365 - 400) * DAY + H 8)) (Some ((365 - 400) * DAY + H 9))
                    (Some ((365 - 400) * DAY + H 8 + DAY)) (Some "UTC")).
Proof. vm_compute. reflexivity. Qed.

Example fallback_run_ex :
  fallback_run = (true, mk_state (Some (10 * DAY + H 23 + 2700)) (Some (10 * DAY + H 23 + 900))
                                 (Some (10 * DAY + H 23 + 2700)) (Some "Test/FallBack")).
Proof. vm_compute. reflexivity. Qed.

(** ** Generic lemmas *)

Ltac zcase :=
  repeat match goal with
  | |- context [?a <=? ?b] => destruct (Z.leb_spec0 a b)
  | |- context [?a <? ?b] => destruct (Z.ltb_spec0 a b)
  | H : context [?a <=? ?b] |- _ => destruct (Z.leb_spec0 a b)
  | H : context [?a <? ?b] |- _ => destruct (Z.ltb_spec0 a b)
  end.

Lemma map_int_some (l : list string) (xs : list Z) :
  map_int l = Some xs <-> map py_int l = map Some xs.
Proof.
  revert xs; induction l as [|p l IH]; intros xs; simpl.
  - destruct xs; simpl; split; congruence.
  - destruct (py_int p) as [n|]; simpl.
    + destruct xs as [|x xs]; simpl.
      * destruct (map_int l); simpl; split; discriminate.
      * split; intros Heq.
        -- destruct (map_int l) as [ys|] eqn:Hl; simpl in Heq; [|discriminate].
           injection Heq as <- <-. f_equal. apply IH. reflexivity.
        -- injection Heq as <- Heq. apply IH in Heq. rewrite Heq. reflexivity.
    + destruct xs; simpl; split; congruence.
Qed.

Lemma py_time_some (h m s t : Z) :
  py_time h m s = Some t <->
  (0 <= h < 24 /\ 0 <= m < 60 /\ 0 <= s < 60) /\ t = h * 3600 + m * 60 + s.
Proof.
  unfold py_time. zcase; simpl; split; intros Hx;
    try discriminate; try (destruct Hx; lia).
  injection Hx as <-. split; [lia | reflexivity].
  destruct Hx as [_ ->]. reflexivity.
Qed.

Lemma parse_time_some (spec : string) (t : Z) :
  parse_time spec = Some t <->
  exists h m sec, time_fields spec h m sec /\ t = h * 3600 + m * 60 + sec.
Proof.
  unfold parse_time, time_fields. split.
  - destruct (map_int (split_colon spec)) as [xs|] eqn:Hm; [|discriminate].
    apply map_int_some in Hm.
    destruct xs as [|h [|m [|sec [|x xs]]]]; try discriminate.
    + intros Hp. apply py_time_some in Hp as [Hr ->].
      exists h, m, 0. split; [|lia]. split; [left; split; [exact Hm|reflexivity]|lia].
    + intros Hp. apply py_time_some in Hp as [Hr ->].
      exists h, m, sec. split; [|reflexivity]. split; [right; exact Hm|lia].
  - intros (h & m & sec & [[[Hm ->]|Hm] Hr] & ->).
    + change [Some h; Some m] with (map Some [h; m]) in Hm.
      apply map_int_some in Hm. rewrite Hm. apply py_time_some. split; [lia|ring].
    + change [Some h; Some m; Some sec] with (map Some [h; m; sec]) in Hm.
      apply map_int_some in Hm. rewrite Hm. apply py_time_some. split; [lia|ring].
Qed.

Lemma is_solar_iff (spec : string) :
  is_solar spec = true <-> spec = "sunrise" \/ spec = "sunset".
Proof.
  unfold is_solar. rewrite orb_true_iff, !String.eqb_eq. reflexivity.
Qed.

Lemma next_update_of_cnu (now s e : Z) (st : state) :
  calculated_start_utc st = Some s -> calculated_end_utc st = Some e ->
  next_update_utc (calculate_next_update now st) =
  Some (if now <? s then s else if now <? e then e else s + DAY).
Proof.
  intros Hs He. unfold calculate_next_update. rewrite Hs, He.
  destruct (now <? s), (now <? e); reflexivity.
Qed.

Lemma cnu_bounds (now : Z) (st : state) :
  calculated_start_utc (calculate_next_update now st) = calculated_start_utc st /\
  calculated_end_utc (calculate_next_update now st) = calculated_end_utc st /\
  resolved_timezone_str (calculate_next_update now st) = resolved_timezone_str st.
Proof.
  destruct st as [s e n z]. unfold calculate_next_update; simpl.
  destruct s, e; simpl; repeat (destruct (now <? _)); repeat split.
Qed.

Lemma cnu_idem (now : Z) (st : state) :
  calculate_next_update now (calculate_next_update now st) = calculate_next_update now st.
Proof.
  destruct st as [s e n z].
  unfold calculate_next_update; simpl.
  destruct s as [s|], e as [e|]; simpl; try reflexivity.
  destruct (now <? s) eqn:E1; simpl; rewrite ?E1; try reflexivity.
  destruct (now <? e) eqn:E2; simpl; rewrite ?E1, ?E2; reflexivity.
Qed.

(** ** The forward search *)

Section Search.

Variables (cfg : config) (tz : tzinfo) (sun : option sun_callback) (now : Z).

Lemma forward_search_spec (fuel : nat) (d : Z) (w : Z * Z) (ref : Z) (w' : Z * Z) :
  get_window cfg tz sun d = Some w ->
  forward_search cfg tz sun now fuel d w = Some (ref, w') ->
  0 <= ref - d <= Z.of_nat fuel /\
  (forall k, 0 <= k < ref - d ->
     exists wk, get_window cfg tz sun (d + k) = Some wk /\ snd wk <= now) /\
  get_window cfg tz sun ref = Some w' /\
  (ref - d < Z.of_nat fuel -> now < snd w').
Proof.
  revert d w. induction fuel as [|fuel IH]; intros d w Hw Hs; simpl in Hs.
  - injection Hs as <- <-. split; [lia|]. split; [intros k Hk; lia|].
    split; [exact Hw|]. intros Hr. lia.
  - destruct (snd w <=? now) eqn:Hle.
    + apply Z.leb_le in Hle.
      destruct (get_window cfg tz sun (d + 1)) as [w1|] eqn:Hw1; [|discriminate].
      destruct (IH (d + 1) w1 Hw1 Hs) as (Hb & Hk & Hg & Hlt).
      split; [lia|]. split; [|split; [exact Hg|]].
      * intros k Hk0. destruct (Z.eq_dec k 0) as [->|Hnz].
        { exists w. rewrite Z.add_0_r. auto. }
        destruct (Hk (k - 1)) as (wk & Hwk & Hle'); [lia|].
        exists wk. replace (d + k) with (d + 1 + (k - 1)) by lia. auto.
      * intros Hr. apply Hlt. lia.
    + apply Z.leb_gt in Hle. injection Hs as <- <-.
      split; [lia|]. split; [intros k Hk; lia|]. split; [exact Hw|]. intros _. exact Hle.
Qed.

Lemma root_window_unfold (w0 : Z * Z) :
  get_window cfg tz sun (local_date tz now) = Some w0 ->
  root_window cfg tz sun now =
  match search_of cfg tz sun now w0 with
  | None => None
  | Some (ref, (s, e)) =>
      if now <? s then
        match get_window cfg tz sun (ref - 1) with
        | None => None
        | Some (ps, pe) =>
            if (ps <=? now) && (now <? pe) then Some (ps, pe) else Some (s, e)
        end
      else Some (s, e)
  end.
Proof. intros Hw. unfold root_window. rewrite Hw. reflexivity. Qed.

(** Every window the root logic returns is [get_window d] for some date. *)
Lemma root_window_is_window (r : Z * Z) :
  root_window cfg tz sun now = Some r -> exists d, get_window cfg tz sun d = Some r.
Proof.
  unfold root_window.
  destruct (get_window cfg tz sun (local_date tz now)) as [w0|] eqn:Hw0; [|discriminate].
  destruct (forward_search _ _ _ _ _ _ _) as [[ref [s e]]|] eqn:Hs; [|discriminate].
  destruct (forward_search_spec _ _ _ _ _ Hw0 Hs) as (_ & _ & Hg & _).
  destruct (now <? s).
  - destruct (get_window cfg tz sun (ref - 1)) as [[ps pe]|] eqn:Hp; [|discriminate].
    destruct ((ps <=? now) && (now <? pe)); intros Hr; injection Hr as <-; eauto.
  - intros Hr; injection Hr as <-; eauto.
Qed.

End Search.

Section Claims.

Variable zoneinfo : string -> option tzinfo.
Variable fromisoformat : string -> option Z.

Lemma update_success_shape (cfg : config) (now : Z) (dtz : tzinfo)
    (sun : option sun_callback) (parent : option (gmap string string)) (st : state) :
  fst (update_boundaries zoneinfo fromisoformat cfg now dtz sun parent st) = true ->
  exists s e, calculated_start_utc (snd (update_boundaries zoneinfo fromisoformat cfg now dtz sun parent st)) = Some s /\
    calculated_end_utc (snd (update_boundaries zoneinfo fromisoformat cfg now dtz sun parent st)) = Some e /\
    snd (update_boundaries zoneinfo fromisoformat cfg now dtz sun parent st) =
      calculate_next_update now (snd (update_boundaries zoneinfo fromisoformat cfg now dtz sun parent st)).
Proof.
  unfold update_boundaries.
  repeat case_match; simpl; intros Hok; try discriminate;
    (eexists _, _; split; [|split];
     [ rewrite (proj1 (cnu_bounds _ _)); reflexivity
     | rewrite (proj1 (proj2 (cnu_bounds _ _))); reflexivity
     | rewrite cnu_idem; reflexivity ]).
Qed.

(** C6: the transition scheduler returns [start_utc] before the window,
    [end_utc] inside it and [start_utc + 24h] otherwise; after every
    successful update both boundaries are set and [next_update_utc] holds
    the scheduler's value for them. *)
Theorem next_transition_schedule (cfg : config) (now : Z) (dtz : tzinfo)
    (sun : option sun_callback) (parent : option (gmap string string)) (st : state) :
  (forall (stx : state) (s e : Z),
     calculated_start_utc stx = Some s -> calculated_end_utc stx = Some e ->
     (now < s -> next_update_utc (calculate_next_update now stx) = Some s) /\
     (s <= now < e -> next_update_utc (calculate_next_update now stx) = Some e) /\
     (s <= now -> e <= now ->
        next_update_utc (calculate_next_update now stx) = Some (s + DAY))) /\
  (fst (update_boundaries zoneinfo fromisoformat cfg now dtz sun parent st) = true ->
   exists s e,
     calculated_start_utc (snd (update_boundaries zoneinfo fromisoformat cfg now dtz sun parent st)) = Some s /\
     calculated_end_utc (snd (update_boundaries zoneinfo fromisoformat cfg now dtz sun parent st)) = Some e /\
     next_update_utc (snd (update_boundaries zoneinfo fromisoformat cfg now dtz sun parent st)) =
       Some (if now <? s then s else if now <? e then e else s + DAY)).
Proof.
  split.
  - intros stx s e Hs He.
    rewrite (next_update_of_cnu now s e stx Hs He).
    repeat split; intros; zcase; first [reflexivity | lia].
  - intros Hok.
    destruct (update_success_shape cfg now dtz sun parent st Hok) as (s & e & Hs & He & Heq).
    exists s, e. split; [exact Hs|]. split; [exact He|].
    rewrite Heq. apply next_update_of_cnu; assumption.
Qed.

(** C5 (amended): [is_on now] holds iff both boundaries are set and
    [start <= now < end]; so it is false at the end instant, and true at the
    start instant exactly when [end > start]. *)
Theorem is_on_half_open (st : state) (now : Z) :
  (is_on st now = true <->
   exists s e, calculated_start_utc st = Some s /\ calculated_end_utc st = Some e /\
               s <= now < e) /\
  (forall s e, calculated_start_utc st = Some s -> calculated_end_utc st = Some e ->
     is_on st e = false /\ (is_on st s = true <-> s < e)).
Proof.
  unfold is_on. split.
  - destruct (calculated_start_utc st) as [s|], (calculated_end_utc st) as [e|];
      split; intros Hx; try discriminate;
      try (destruct Hx as (? & ? & ? & ? & ?); discriminate).
    + apply andb_true_iff in Hx as [H1 H2]. apply Z.leb_le in H1. apply Z.ltb_lt in H2.
      exists s, e. auto.
    + destruct Hx as (s' & e' & Hs & He & Hr). injection Hs as <-. injection He as <-.
      apply andb_true_iff. split; [apply Z.leb_le | apply Z.ltb_lt]; lia.
  - intros s e -> ->. split.
    + zcase; simpl; first [reflexivity | lia].
    + zcase; simpl; split; intros; first [reflexivity | discriminate | lia].
Qed.

(** C7: [_resolve_time].  For [sunrise]/[sunset] it fails exactly when the
    callback is absent or returns nothing, and otherwise returns the
    callback's instant; for any other spec it succeeds exactly when the spec
    is 2 or 3 colon-separated integer fields in range, with the instant
    [to_utc tz (date * 86400 + h*3600 + m*60 + s)]. *)
Theorem resolve_time_contract (spec : string) (d : Z) (tz : tzinfo)
    (sun : option sun_callback) :
  ((spec = "sunrise" \/ spec = "sunset") ->
     (resolve_time spec d tz sun = None <->
        sun = None \/ exists cb, sun = Some cb /\ cb spec d = None) /\
     (forall cb u, sun = Some cb -> cb spec d = Some u -> resolve_time spec d tz sun = Some u)) /\
  (~ (spec = "sunrise" \/ spec = "sunset") ->
     (resolve_time spec d tz sun = None <-> ~ exists h m sec, time_fields spec h m sec) /\
     (forall u, resolve_time spec d tz sun = Some u <->
        exists h m sec, time_fields spec h m sec /\
          u = to_utc tz (d * DAY + (h * 3600 + m * 60 + sec)))).
Proof.
  unfold resolve_time. split.
  - intros Hsol. apply is_solar_iff in Hsol. rewrite Hsol. split.
    + destruct sun as [cb|]; split.
      * intros Hn. right. exists cb. auto.
      * intros [Hn|(cb' & Hc & Hn)]; [discriminate|]. injection Hc as <-. exact Hn.
      * intros _. left. reflexivity.
      * intros _. reflexivity.
    + intros cb u -> Hu. exact Hu.
  - intros Hsol. assert (is_solar spec = false) as Hf.
    { destruct (is_solar spec) eqn:E; [|reflexivity].
      exfalso. apply Hsol, is_solar_iff, E. }
    rewrite Hf. split.
    + destruct (parse_time spec) as [t|] eqn:Hp; split; intros Hx.
      * discriminate.
      * exfalso. apply Hx. apply parse_time_some in Hp as (h & m & sec & Hfld & _).
        exists h, m, sec. exact Hfld.
      * intros (h & m & sec & Hfld).
        assert (parse_time spec = Some (h * 3600 + m * 60 + sec)) as Hs.
        { apply parse_time_some. exists h, m, sec. auto. }
        congruence.
      * reflexivity.
    + intros u. destruct (parse_time spec) as [t|] eqn:Hp; split.
      * intros Hu. injection Hu as <-. apply parse_time_some in Hp as (h & m & sec & Hfld & ->).
        exists h, m, sec. auto.
      * intros (h & m & sec & Hfld & ->).
        assert (parse_time spec = Some (h * 3600 + m * 60 + sec)) as Hs.
        { apply parse_time_some. exists h, m, sec. auto. }
        rewrite Hp in Hs. injection Hs as ->. reflexivity.
      * discriminate.
      * intros (h & m & sec & Hfld & _).
        assert (parse_time spec = Some (h * 3600 + m * 60 + sec)) as Hs.
        { apply parse_time_some. exists h, m, sec. auto. }
        congruence.
Qed.

Lemma parent_bounds_nonempty (attrs : gmap string string) (b : Z * Z) :
  parent_bounds fromisoformat attrs = Some b -> bool_decide (attrs = ∅) = false.
Proof.
  unfold parent_bounds. intros Hb.
  destruct (attrs !! "start_time_utc") as [x|] eqn:Hx; [|discriminate].
  apply bool_decide_eq_false. intros ->. rewrite lookup_empty in Hx. discriminate.
Qed.

(** C4: in child mode, for a parent with parseable boundaries, the update sets
    [start = anchor(start_ref) + start_offset] and
    [end = anchor(end_ref) + end_offset] and succeeds iff [end > start]. *)
Theorem child_window_arith (cfg : config) (now : Z) (dtz : tzinfo)
    (sun : option sun_callback) (attrs : gmap string string) (st : state)
    (p_start p_end : Z) :
  is_child cfg = true ->
  parent_bounds fromisoformat attrs = Some (p_start, p_end) ->
  let s := anchor (start_ref cfg) p_start p_end + start_offset cfg in
  let e := anchor (end_ref cfg) p_start p_end + end_offset cfg in
  let r := update_boundaries zoneinfo fromisoformat cfg now dtz sun (Some attrs) st in
  calculated_start_utc (snd r) = Some s /\ calculated_end_utc (snd r) = Some e /\
  (fst r = true <-> s < e).
Proof.
  intros Hc Hb s e r. subst r s e. unfold update_boundaries, anchor.
  rewrite Hc, (parent_bounds_nonempty attrs _ Hb), Hb.
  set (s := (if bool_decide (start_ref cfg = Some "start") then p_start else p_end)
             + start_offset cfg).
  set (e := (if bool_decide (end_ref cfg = Some "start") then p_start else p_end)
             + end_offset cfg).
  destruct (e <=? s) eqn:Hes; simpl.
  - apply Z.leb_le in Hes. repeat split; try reflexivity; intros Hx; [discriminate | lia].
  - apply Z.leb_gt in Hes.
    rewrite (proj1 (cnu_bounds _ _)), (proj1 (proj2 (cnu_bounds _ _))).
    repeat split; try reflexivity. lia.
Qed.

(** The root branch of [update_boundaries], with [root_window] kept folded. *)
Lemma update_root (cfg : config) (now : Z) (dtz : tzinfo)
    (sun : option sun_callback) (parent : option (gmap string string)) (st : state) :
  is_child cfg = false ->
  update_boundaries zoneinfo fromisoformat cfg now dtz sun parent st =
  match root_window cfg (root_tz zoneinfo cfg dtz) sun now with
  | None => (false, set_tz_str (Some (root_tz_name cfg dtz)) st)
  | Some (s, e) =>
      (true, calculate_next_update now
               (set_end (Some e) (set_start (Some s)
                  (set_tz_str (Some (root_tz_name cfg dtz)) st))))
  end.
Proof. intros Hc. unfold update_boundaries. rewrite Hc. reflexivity. Qed.

Ltac setters :=
  unfold calculate_next_update, set_start, set_end, set_next, set_tz_str;
  cbn [calculated_start_utc calculated_end_utc next_update_utc resolved_timezone_str];
  repeat case_match; try reflexivity.

(** C9: two consecutive updates with identical inputs give the same result
    and the same fields. *)
Theorem update_idempotent (cfg : config) (now : Z) (dtz : tzinfo)
    (sun : option sun_callback) (parent : option (gmap string string)) (st : state) :
  let r1 := update_boundaries zoneinfo fromisoformat cfg now dtz sun parent st in
  let r2 := update_boundaries zoneinfo fromisoformat cfg now dtz sun parent (snd r1) in
  fst r2 = fst r1 /\ snd r2 = snd r1.
Proof.
  cbv zeta. destruct (is_child cfg) eqn:Hc.
  - unfold update_boundaries. rewrite Hc. cbv beta iota zeta.
    destruct parent as [attrs|]; [|split; reflexivity].
    destruct (bool_decide (attrs = ∅)); [split; reflexivity|].
    destruct (truthy (attrs !! "timezone")) as [ptz|];
      destruct (parent_bounds fromisoformat attrs) as [[ps pe]|]; cbv beta iota zeta;
      try (split; reflexivity);
      destruct (_ <=? _) eqn:Hle; cbv beta iota zeta; split; try reflexivity;
      destruct st; setters.
  - rewrite !update_root by exact Hc.
    destruct (root_window cfg (root_tz zoneinfo cfg dtz) sun now) as [[su eu]|];
      cbv beta iota zeta; split; try reflexivity; destruct st; setters.
Qed.

(** C10: a root sensor whose [timezone_str] is a non-empty string that
    [ZoneInfo] rejects does not fail on that account: it computes its window
    in the default zone [dtz] and reports the configured string as its
    resolved timezone name. *)
Theorem unknown_zone_falls_back (cfg : config) (now : Z) (dtz : tzinfo)
    (sun : option sun_callback) (parent : option (gmap string string)) (st : state)
    (tzs : string) :
  is_child cfg = false ->
  configured_timezone_str cfg = Some tzs -> tzs <> "" -> zoneinfo tzs = None ->
  update_boundaries zoneinfo fromisoformat cfg now dtz sun parent st =
  match root_window cfg dtz sun now with
  | None => (false, set_tz_str (Some tzs) st)
  | Some (s, e) =>
      (true, calculate_next_update now
               (set_end (Some e) (set_start (Some s) (set_tz_str (Some tzs) st))))
  end.
Proof.
  intros Hc Hz Hne Hl. rewrite update_root by exact Hc.
  assert (truthy (Some tzs) = Some tzs) as Ht.
  { unfold truthy. destruct (String.eqb tzs "") eqn:E; [|reflexivity].
    apply String.eqb_eq in E. contradiction. }
  unfold root_tz, root_tz_name. rewrite Hz, Ht, Hl. reflexivity.
Qed.

Lemma assigned_fields (now s e : Z) (x : state) :
  calculated_start_utc (calculate_next_update now (set_end (Some e) (set_start (Some s) x))) = Some s /\
  calculated_end_utc (calculate_next_update now (set_end (Some e) (set_start (Some s) x))) = Some e.
Proof.
  rewrite (proj1 (cnu_bounds _ _)), (proj1 (proj2 (cnu_bounds _ _))). split; reflexivity.
Qed.

(** C8: the root forward search starts at the window of the local date [D]
    of [now], advances at most 365 times and only past windows whose end is
    [<= now]; when it stops before the cap its candidate ends after [now], as
    does the window a successful update then records; when the cap is
    reached the update still succeeds, with the final candidate. *)
Theorem forward_search_bounded (cfg : config) (now : Z) (dtz : tzinfo)
    (sun : option sun_callback) (parent : option (gmap string string)) (st : state)
    (w0 : Z * Z) (ref : Z) (w : Z * Z) :
  is_child cfg = false ->
  let tz := root_tz zoneinfo cfg dtz in
  let D := local_date tz now in
  get_window cfg tz sun D = Some w0 ->
  search_of cfg tz sun now w0 = Some (ref, w) ->
  let r := update_boundaries zoneinfo fromisoformat cfg now dtz sun parent st in
  0 <= ref - D <= 365 /\
  (forall k, 0 <= k < ref - D ->
     exists wk, get_window cfg tz sun (D + k) = Some wk /\ snd wk <= now) /\
  get_window cfg tz sun ref = Some w /\
  (ref - D < 365 -> now < snd w /\
     (fst r = true -> exists e, calculated_end_utc (snd r) = Some e /\ now < e)) /\
  (ref - D = 365 -> fst r = true /\
     calculated_start_utc (snd r) = Some (fst w) /\ calculated_end_utc (snd r) = Some (snd w)).
Proof.
  intros Hc tz D Hw Hs r.
  destruct (forward_search_spec cfg tz sun now SEARCH_BOUND D w0 ref w Hw Hs)
    as (Hb & Hk & Hg & Hlt).
  change (Z.of_nat SEARCH_BOUND) with 365 in Hb, Hlt.
  split; [exact Hb|]. split; [exact Hk|]. split; [exact Hg|].
  subst r. rewrite update_root by exact Hc. fold tz.
  rewrite (root_window_unfold cfg tz sun now w0 Hw), Hs. destruct w as [s e]. cbn [fst snd] in *. split.
  - intros Hr. specialize (Hlt Hr). split; [exact Hlt|].
    destruct (now <? s).
    + destruct (get_window cfg tz sun (ref - 1)) as [[ps pe]|]; cbv beta iota;
        [|discriminate].
      destruct ((ps <=? now) && (now <? pe)) eqn:Hin; intros _.
      * apply andb_true_iff in Hin as [_ Hin]. apply Z.ltb_lt in Hin.
        exists pe. split; [apply assigned_fields | exact Hin].
      * exists e. split; [apply assigned_fields | exact Hlt].
    + intros _. exists e. split; [apply assigned_fields | exact Hlt].
  - intros Hr.
    destruct (Hk (ref - D - 1)) as ([ps pe] & Hp & Hle); [lia|].
    replace (D + (ref - D - 1)) with (ref - 1) in Hp by lia. cbn [snd] in Hle.
    destruct (now <? s).
    + rewrite Hp. cbv beta iota.
      replace ((ps <=? now) && (now <? pe)) with false.
      2:{ symmetry. apply andb_false_iff. right. apply Z.ltb_ge. exact Hle. }
      split; [reflexivity | apply assigned_fields].
    + split; [reflexivity | apply assigned_fields].
Qed.

(** C3 (amended): the window of [d* - 1] is consulted only when [now] is
    before the start of the candidate [(s, e)] the forward search settles on;
    it then replaces the candidate exactly when it contains [now].  When
    [s <= now] the candidate is recorded, whatever the previous window is. *)
Theorem previous_window_choice (cfg : config) (now : Z) (dtz : tzinfo)
    (sun : option sun_callback) (parent : option (gmap string string)) (st : state)
    (w0 : Z * Z) (ref s e : Z) :
  is_child cfg = false ->
  let tz := root_tz zoneinfo cfg dtz in
  get_window cfg tz sun (local_date tz now) = Some w0 ->
  search_of cfg tz sun now w0 = Some (ref, (s, e)) ->
  let r := update_boundaries zoneinfo fromisoformat cfg now dtz sun parent st in
  (s <= now ->
     fst r = true /\ calculated_start_utc (snd r) = Some s /\ calculated_end_utc (snd r) = Some e) /\
  (now < s -> forall ps pe, get_window cfg tz sun (ref - 1) = Some (ps, pe) ->
     fst r = true /\
     (ps <= now < pe ->
        calculated_start_utc (snd r) = Some ps /\ calculated_end_utc (snd r) = Some pe) /\
     (~ (ps <= now < pe) ->
        calculated_start_utc (snd r) = Some s /\ calculated_end_utc (snd r) = Some e)) /\
  (now < s -> get_window cfg tz sun (ref - 1) = None -> fst r = false).
Proof.
  intros Hc tz Hw Hs r. subst r. rewrite update_root by exact Hc. fold tz.
  rewrite (root_window_unfold cfg tz sun now w0 Hw), Hs. split; [|split].
  - intros Hle. replace (now <? s) with false by (symmetry; apply Z.ltb_ge; exact Hle).
    split; [reflexivity | apply assigned_fields].
  - intros Hlt ps pe Hp. replace (now <? s) with true by (symmetry; apply Z.ltb_lt; exact Hlt).
    rewrite Hp. cbv beta iota.
    destruct ((ps <=? now) && (now <? pe)) eqn:Hin.
    + apply andb_true_iff in Hin as [H1 H2]. apply Z.leb_le in H1. apply Z.ltb_lt in H2.
      split; [reflexivity|]. split; [intros _; apply assigned_fields | intros Hn; lia].
    + split; [reflexivity|]. split; [|intros _; apply assigned_fields].
      intros [H1 H2]. apply Z.leb_le in H1. apply Z.ltb_lt in H2.
      rewrite H1, H2 in Hin. discriminate.
  - intros Hlt Hp. replace (now <? s) with true by (symmetry; apply Z.ltb_lt; exact Hlt).
    rewrite Hp. reflexivity.
Qed.

(** A failed update that is not a child update with parseable parent
    boundaries leaves the boundaries and the next transition as they were. *)
Lemma failure_frame (cfg : config) (now : Z) (dtz : tzinfo)
    (sun : option sun_callback) (parent : option (gmap string string)) (st : state) :
  fst (update_boundaries zoneinfo fromisoformat cfg now dtz sun parent st) = false ->
  (is_child cfg = true -> forall attrs, parent = Some attrs ->
     parent_bounds fromisoformat attrs = None) ->
  let st' := snd (update_boundaries zoneinfo fromisoformat cfg now dtz sun parent st) in
  calculated_start_utc st' = calculated_start_utc st /\
  calculated_end_utc st' = calculated_end_utc st /\
  next_update_utc st' = next_update_utc st /\
  (is_child cfg = false -> resolved_timezone_str st' = Some (root_tz_name cfg dtz)) /\
  (is_child cfg = true -> resolved_timezone_str st' = resolved_timezone_str st \/
     exists attrs p, parent = Some attrs /\ truthy (attrs !! "timezone") = Some p /\
                     resolved_timezone_str st' = Some p).
Proof.
  intros Hf Hp st'. subst st'. destruct (is_child cfg) eqn:Hc.
  - revert Hf. unfold update_boundaries. rewrite Hc. cbv beta iota zeta.
    destruct parent as [attrs|]; cbn [fst snd]; intros Hf.
    2:{ repeat split; try reflexivity; intros; first [discriminate | left; reflexivity]. }
    destruct (bool_decide (attrs = ∅)); cbn [fst snd].
    { repeat split; try reflexivity; intros; first [discriminate | left; reflexivity]. }
    rewrite (Hp eq_refl attrs eq_refl) in *. cbv beta iota in *.
    destruct (truthy (attrs !! "timezone")) as [ptz|] eqn:Ht; cbn [fst snd];
      destruct st; cbn; repeat split; try reflexivity; intros; try discriminate.
    + right. exists attrs, ptz. auto.
    + left. reflexivity.
  - revert Hf. rewrite update_root by exact Hc.
    destruct (root_window _ _ _ _) as [[su eu]|]; cbn [fst snd]; intros Hf;
      [discriminate|].
    destruct st; cbn; repeat split; intros; first [reflexivity | discriminate].
Qed.

Lemma get_window_order (cfg : config) (tz : tzinfo) (sun : option sun_callback)
    (d s e : Z) :
  get_window cfg tz sun d = Some (s, e) ->
  exists cs ce s0 e0,
    configured_start cfg = Some cs /\ configured_end cfg = Some ce /\
    resolve_time cs d tz sun = Some s0 /\ resolve_time ce d tz sun = Some e0 /\
    s = s0 + start_offset cfg /\
    (s < e <-> s0 + start_offset cfg < e0 + end_offset cfg + DAY).
Proof.
  unfold get_window.
  destruct (configured_start cfg) as [cs|] eqn:Hcs, (configured_end cfg) as [ce|] eqn:Hce;
    try discriminate.
  destruct (resolve_time cs d tz sun) as [s0|] eqn:Hrs, (resolve_time ce d tz sun) as [e0|] eqn:Hre;
    try discriminate.
  intros Hw. exists cs, ce, s0, e0. do 4 (split; [first [reflexivity | assumption]|]).
  destruct (e0 + end_offset cfg <=? s0 + start_offset cfg) eqn:Hle;
    injection Hw as <- <-.
  - apply Z.leb_le in Hle. split; [reflexivity|]. lia.
  - apply Z.leb_gt in Hle. split; [reflexivity|]. unfold DAY. lia.
Qed.

(** C1 (amended): an update that fails for any reason other than a child
    window failing its [end > start] check leaves [resolved_start_utc],
    [resolved_end_utc] and [next_transition_utc] unchanged; the resolved
    timezone name is assigned before any check can fail (root mode: the
    override or the default zone's name; child mode: the parent's non-empty
    [timezone] attribute, if any). *)
Theorem failed_update_keeps_boundaries (cfg : config) (now : Z) (dtz : tzinfo)
    (sun : option sun_callback) (parent : option (gmap string string)) (st : state) :
  fst (update_boundaries zoneinfo fromisoformat cfg now dtz sun parent st) = false ->
  (is_child cfg = true -> forall attrs, parent = Some attrs ->
     parent_bounds fromisoformat attrs = None) ->
  let st' := snd (update_boundaries zoneinfo fromisoformat cfg now dtz sun parent st) in
  calculated_start_utc st' = calculated_start_utc st /\
  calculated_end_utc st' = calculated_end_utc st /\
  next_update_utc st' = next_update_utc st /\
  (is_child cfg = false -> resolved_timezone_str st' = Some (root_tz_name cfg dtz)) /\
  (is_child cfg = true -> resolved_timezone_str st' = resolved_timezone_str st \/
     exists attrs p, parent = Some attrs /\ truthy (attrs !! "timezone") = Some p /\
                     resolved_timezone_str st' = Some p).
Proof. exact (failure_frame cfg now dtz sun parent st). Qed.

(** C2 (amended): a successful child update records [end > start]; a
    successful root update records the window of some reference date [d],
    whose order holds exactly when the resolved start plus its offset is
    before the resolved end plus its offset plus 24 hours (the midnight
    normalization adds 24 hours once); a failed update other than a child
    window failing its [end > start] check keeps the boundaries, hence the
    invariant. *)
Theorem window_order (cfg : config) (now : Z) (dtz : tzinfo)
    (sun : option sun_callback) (parent : option (gmap string string)) (st : state) :
  let r := update_boundaries zoneinfo fromisoformat cfg now dtz sun parent st in
  (is_child cfg = true -> fst r = true ->
     exists s e, calculated_start_utc (snd r) = Some s /\
                 calculated_end_utc (snd r) = Some e /\ s < e) /\
  (is_child cfg = false -> fst r = true ->
     exists d cs ce s0 e0,
       configured_start cfg = Some cs /\ configured_end cfg = Some ce /\
       resolve_time cs d (root_tz zoneinfo cfg dtz) sun = Some s0 /\
       resolve_time ce d (root_tz zoneinfo cfg dtz) sun = Some e0 /\
       calculated_start_utc (snd r) = Some (s0 + start_offset cfg) /\
       calculated_end_utc (snd r) <> None /\
       (window_ok (snd r) <-> s0 + start_offset cfg < e0 + end_offset cfg + DAY)) /\
  (fst r = false ->
     (is_child cfg = true -> forall attrs, parent = Some attrs ->
        parent_bounds fromisoformat attrs = None) ->
     window_ok st -> window_ok (snd r)).
Proof.
  intros r. subst r. split; [|split].
  - intros Hc Hok.
    destruct (update_success_shape cfg now dtz sun parent st Hok) as (s & e & Hs & He & _).
    exists s, e. split; [exact Hs|]. split; [exact He|].
    revert Hok Hs He. unfold update_boundaries. rewrite Hc. cbv beta iota zeta.
    destruct parent as [attrs|]; [|discriminate].
    destruct (bool_decide (attrs = ∅)); [discriminate|].
    destruct (parent_bounds fromisoformat attrs) as [[ps pe]|];
      destruct (truthy (attrs !! "timezone")); cbv beta iota zeta; try discriminate;
      destruct (_ <=? _) eqn:Hle; cbn [fst snd]; try discriminate; intros _;
      rewrite (proj1 (assigned_fields _ _ _ _)), (proj2 (assigned_fields _ _ _ _));
      intros Hs He; injection Hs as <-; injection He as <-; apply Z.leb_gt in Hle; exact Hle.
  - intros Hc. rewrite update_root by exact Hc.
    destruct (root_window cfg (root_tz zoneinfo cfg dtz) sun now) as [[su eu]|] eqn:Hr;
      cbn [fst]; [|discriminate]. intros _.
    destruct (root_window_is_window _ _ _ _ _ Hr) as [d Hd].
    destruct (get_window_order _ _ _ _ _ _ Hd) as (cs & ce & s0 & e0 & H1 & H2 & H3 & H4 & -> & Hiff).
    exists d, cs, ce, s0, e0. do 4 (split; [first [reflexivity | assumption]|]). cbn [snd].
    unfold window_ok. rewrite (proj1 (assigned_fields _ _ _ _)), (proj2 (assigned_fields _ _ _ _)).
    split; [reflexivity|]. split; [discriminate | exact Hiff].
  - intros Hf Hp Hw.
    destruct (failure_frame cfg now dtz sun parent st Hf Hp) as (Hs & He & _).
    unfold window_ok. rewrite Hs, He. exact Hw.
Qed.

End Claims.

(** C1, counterexample: a root update that fails (no start/end configured)
    still replaces the resolved timezone name. *)
Lemma failed_update_changes_tz_name :
  let st := init_state unconfigured_cfg in
  let r := update_boundaries no_zones iso_hhmm unconfigured_cfg (H 12) UTC None None st in
  fst r = false /\ resolved_timezone_str st = None /\
  resolved_timezone_str (snd r) = Some "UTC" /\ snd r <> st.
Proof. vm_compute. repeat split; try reflexivity. discriminate. Qed.

Lemma failed_update_keeps_boundaries_witness :
  let st := mk_state (Some (H 8)) (Some (H 9)) (Some (H 9)) None in
  let r := update_boundaries no_zones iso_hhmm unconfigured_cfg (H 12) UTC None None st in
  fst r = false /\ calculated_start_utc (snd r) = Some (H 8) /\
  next_update_utc (snd r) = Some (H 9) /\ resolved_timezone_str (snd r) = Some "UTC".
Proof.
  intros st r.
  assert (fst r = false) as Hf by (vm_compute; reflexivity).
  destruct (failed_update_keeps_boundaries no_zones iso_hhmm unconfigured_cfg (H 12) UTC
              None None st Hf (fun Hc => ltac:(discriminate Hc)))
    as (Hs & _ & Hn & Hz & _).
  split; [exact Hf|]. split; [exact Hs|]. split; [exact Hn|].
  exact (Hz eq_refl).
Defined.

(** C2, counterexample: 23:45 -> 00:15 on the fall-back day succeeds with
    [end < start]. *)
Lemma fallback_window_reversed :
  fst fallback_run = true /\
  calculated_start_utc (snd fallback_run) = Some (10 * DAY + H 23 + 2700) /\
  calculated_end_utc (snd fallback_run) = Some (10 * DAY + H 23 + 900) /\
  ~ window_ok (snd fallback_run).
Proof. vm_compute. repeat split; try reflexivity. intros Hlt. discriminate Hlt. Qed.

(** C3, counterexample: with a two-day end offset the previous window also
    contains [now], but the candidate is kept. *)
Lemma previous_window_ignored :
  let now := DAY + H 10 in
  let r := update_boundaries no_zones iso_hhmm long_cfg now UTC None None (init_state long_cfg) in
  search_of long_cfg UTC None now (DAY + H 8, 3 * DAY + H 9) = Some (1, (DAY + H 8, 3 * DAY + H 9)) /\
  get_window long_cfg UTC None (1 - 1) = Some (H 8, 2 * DAY + H 9) /\
  H 8 <= now < 2 * DAY + H 9 /\
  fst r = true /\ calculated_start_utc (snd r) = Some (DAY + H 8).
Proof. vm_compute. repeat split; try reflexivity; discriminate. Qed.

Lemma previous_window_choice_witness :
  let c := root_cfg "22:00:00" "06:00:00" in
  let now := DAY + H 1 in
  is_child c = false /\
  get_window c (root_tz no_zones c UTC) None (local_date (root_tz no_zones c UTC) now)
    = Some (DAY + H 22, 2 * DAY + H 6) /\
  search_of c (root_tz no_zones c UTC) None now (DAY + H 22, 2 * DAY + H 6)
    = Some (1, (DAY + H 22, 2 * DAY + H 6)) /\
  calculated_start_utc
    (snd (update_boundaries no_zones iso_hhmm c now UTC None None (init_state c))) = Some (H 22).
Proof.
  intros c now.
  assert (is_child c = false) as Hc by reflexivity.
  assert (get_window c (root_tz no_zones c UTC) None (local_date (root_tz no_zones c UTC) now)
            = Some (DAY + H 22, 2 * DAY + H 6)) as Hw by (vm_compute; reflexivity).
  assert (search_of c (root_tz no_zones c UTC) None now (DAY + H 22, 2 * DAY + H 6)
            = Some (1, (DAY + H 22, 2 * DAY + H 6))) as Hs by (vm_compute; reflexivity).
  destruct (previous_window_choice no_zones iso_hhmm c now UTC None None (init_state c)
              _ 1 (DAY + H 22) (2 * DAY + H 6) Hc Hw Hs) as (_ & Hprev & _).
  destruct (Hprev ltac:(vm_compute; reflexivity) (H 22) (DAY + H 6)
              ltac:(vm_compute; reflexivity)) as (_ & Hin & _).
  split; [exact Hc|]. split; [exact Hw|]. split; [exact Hs|].
  exact (proj1 (Hin ltac:(vm_compute; split; [discriminate | reflexivity]))).
Defined.

Lemma child_window_arith_witness :
  let c := child_cfg "start" 0 "start" 1800 in
  let r := update_boundaries no_zones iso_hhmm c (H 9 + 900) UTC None
             (Some parent_9_17) (init_state c) in
  is_child c = true /\ parent_bounds iso_hhmm parent_9_17 = Some (H 9, H 17) /\
  calculated_start_utc (snd r) = Some (H 9) /\
  calculated_end_utc (snd r) = Some (H 9 + 1800) /\ fst r = true.
Proof.
  intros c r.
  assert (is_child c = true) as Hc by reflexivity.
  assert (parent_bounds iso_hhmm parent_9_17 = Some (H 9, H 17)) as Hb
    by (vm_compute; reflexivity).
  destruct (child_window_arith no_zones iso_hhmm c (H 9 + 900) UTC None parent_9_17
              (init_state c) (H 9) (H 17) Hc Hb) as (Hs & He & Hok).
  split; [exact Hc|]. split; [exact Hb|]. split; [exact Hs|]. split; [exact He|].
  apply Hok. vm_compute. reflexivity.
Defined.

(** C5, counterexample: the window of [fallback_run] is not active at its
    own start instant. *)
Lemma fallback_inactive_at_start :
  calculated_start_utc (snd fallback_run) = Some (10 * DAY + H 23 + 2700) /\
  is_on (snd fallback_run) (10 * DAY + H 23 + 2700) = false.
Proof. vm_compute. split; reflexivity. Qed.

(** After a gap the search recovers: 08:00 -> 09:00 evaluated at 10:00 on day 3
    settles on day 4. *)
Lemma forward_search_bounded_witness :
  let c := root_cfg "08:00:00" "09:00:00" in
  let now := 3 * DAY + H 10 in
  let r := update_boundaries no_zones iso_hhmm c now UTC None None (init_state c) in
  is_child c = false /\
  get_window c (root_tz no_zones c UTC) None (local_date (root_tz no_zones c UTC) now)
    = Some (3 * DAY + H 8, 3 * DAY + H 9) /\
  search_of c (root_tz no_zones c UTC) None now (3 * DAY + H 8, 3 * DAY + H 9)
    = Some (4, (4 * DAY + H 8, 4 * DAY + H 9)) /\
  now < 4 * DAY + H 9 /\ fst r = true /\
  exists e, calculated_end_utc (snd r) = Some e /\ now < e.
Proof.
  intros c now r.
  assert (is_child c = false) as Hc by reflexivity.
  assert (get_window c (root_tz no_zones c UTC) None (local_date (root_tz no_zones c UTC) now)
            = Some (3 * DAY + H 8, 3 * DAY + H 9)) as Hw by (vm_compute; reflexivity).
  assert (search_of c (root_tz no_zones c UTC) None now (3 * DAY + H 8, 3 * DAY + H 9)
            = Some (4, (4 * DAY + H 8, 4 * DAY + H 9))) as Hs by (vm_compute; reflexivity).
  destruct (forward_search_bounded no_zones iso_hhmm c now UTC None None (init_state c)
              _ 4 _ Hc Hw Hs) as (_ & _ & _ & Hlt & _).
  assert (fst r = true) as Hok by (vm_compute; reflexivity).
  destruct (Hlt ltac:(vm_compute; reflexivity)) as [Hnow Hend].
  split; [exact Hc|]. split; [exact Hw|]. split; [exact Hs|].
  split; [exact Hnow|]. split; [exact Hok|]. exact (Hend Hok).
Defined.

Lemma unknown_zone_falls_back_witness :
  let r := update_boundaries no_zones iso_hhmm mars_cfg (H 8 + 60) UTC None None
             (init_state mars_cfg) in
  is_child mars_cfg = false /\ configured_timezone_str mars_cfg = Some "Mars/Olympus" /\
  "Mars/Olympus" <> "" /\ no_zones "Mars/Olympus" = None /\
  r = match root_window mars_cfg UTC None (H 8 + 60) with
      | None => (false, set_tz_str (Some "Mars/Olympus") (init_state mars_cfg))
      | Some (s, e) =>
          (true, calculate_next_update (H 8 + 60)
                   (set_end (Some e) (set_start (Some s)
                      (set_tz_str (Some "Mars/Olympus") (init_state mars_cfg)))))
      end /\
  fst r = true /\ resolved_timezone_str (snd r) = Some "Mars/Olympus".
Proof.
  intros r.
  assert (is_child mars_cfg = false) as Hc by reflexivity.
  assert (configured_timezone_str mars_cfg = Some "Mars/Olympus") as Hz by reflexivity.
  assert ("Mars/Olympus" <> "") as Hne by discriminate.
  assert (no_zones "Mars/Olympus" = None) as Hl by reflexivity.
  pose proof (unknown_zone_falls_back no_zones iso_hhmm mars_cfg (H 8 + 60) UTC None None
                (init_state mars_cfg) "Mars/Olympus" Hc Hz Hne Hl) as Heq.
  split; [exact Hc|]. split; [exact Hz|]. split; [exact Hne|]. split; [exact Hl|].
  split; [exact Heq|]. subst r. rewrite Heq. vm_compute. split; reflexivity.
Defined.

(** ** The Home Assistant wrapper and the parent selector *)

Section Extras.

Variable zoneinfo : string -> option tzinfo.
Variable fromisoformat : string -> option Z.
Variable isoformat : Z -> string.
Variable isoformat_in : tzinfo -> Z -> string.

Ltac record_setters :=
  unfold calculate_next_update, set_start, set_end, set_next, set_tz_str;
  cbn [calculated_start_utc calculated_end_utc next_update_utc resolved_timezone_str];
  repeat case_match; try reflexivity.

Lemma esa_some (sn : sensor) (ltz : tzinfo) (st : state) (pub : gmap string attr_value) :
  extra_state_attributes isoformat isoformat_in sn ltz st = Some pub ->
  exists s e n, calculated_start_utc st = Some s /\ calculated_end_utc st = Some e /\
    next_update_utc st = Some n /\
    pub !! "start_time_utc" = Some (AStr (isoformat s)) /\
    pub !! "end_time_utc" = Some (AStr (isoformat e)) /\
    pub !! "next_update_utc" = Some (AStr (isoformat n)) /\
    pub !! "is_child" = Some (ABool (is_child (s_cfg sn))) /\
    pub !! "timezone" = Some (AStr (or_default (resolved_timezone_str st) "Default (System)")).
Proof.
  unfold extra_state_attributes.
  destruct (calculated_start_utc st) as [s|], (calculated_end_utc st) as [e|],
    (next_update_utc st) as [n|]; try discriminate.
  intros Hp; injection Hp as <-. exists s, e, n. do 3 (split; [reflexivity|]).
  repeat split; simplify_map_eq; reflexivity.
Qed.

Lemma esa_of_some (sn : sensor) (ltz : tzinfo) (st : state) (s e n : Z) :
  calculated_start_utc st = Some s -> calculated_end_utc st = Some e ->
  next_update_utc st = Some n ->
  exists pub, extra_state_attributes isoformat isoformat_in sn ltz st = Some pub /\
    pub !! "start_time_utc" = Some (AStr (isoformat s)) /\
    pub !! "end_time_utc" = Some (AStr (isoformat e)) /\
    pub !! "next_update_utc" = Some (AStr (isoformat n)).
Proof.
  intros Hs He Hn. unfold extra_state_attributes. rewrite Hs, He, Hn.
  eexists. split; [reflexivity|]. repeat split; simplify_map_eq; reflexivity.
Qed.

Lemma or_default_truthy (o : option string) (d : string) :
  d <> "" -> truthy (Some (or_default o d)) = Some (or_default o d).
Proof.
  intros Hd. unfold or_default.
  destruct (truthy o) as [x|] eqn:Ht.
  - destruct o as [y|]; cbn in Ht; [|discriminate].
    destruct (String.eqb y "") eqn:Ey; [discriminate|]. injection Ht as <-.
    cbn. rewrite Ey. reflexivity.
  - cbn. destruct (String.eqb d "") eqn:Ed; [|reflexivity].
    apply String.eqb_eq in Ed. contradiction.
Qed.

Lemma str_view_lookup_str (attrs : gmap string attr_value) (k x : string) :
  attrs !! k = Some (AStr x) -> str_view attrs !! k = Some x.
Proof. intros Hk. unfold str_view. rewrite lookup_omap, Hk. reflexivity. Qed.

Lemma str_view_lookup_some (attrs : gmap string attr_value) (k x : string) :
  str_view attrs !! k = Some x -> attrs !! k <> None.
Proof.
  unfold str_view. rewrite lookup_omap. destruct (attrs !! k); [discriminate | discriminate].
Qed.

(** Two consecutive core updates with identical inputs agree. *)
Lemma update_twice (cfg : config) (now : Z) (dtz : tzinfo)
    (sun : option sun_callback) (parent : option (gmap string string)) (st : state) :
  update_boundaries zoneinfo fromisoformat cfg now dtz sun parent
    (snd (update_boundaries zoneinfo fromisoformat cfg now dtz sun parent st)) =
  update_boundaries zoneinfo fromisoformat cfg now dtz sun parent st.
Proof.
  destruct (is_child cfg) eqn:Hc.
  - unfold update_boundaries. rewrite Hc. cbv beta iota zeta.
    destruct parent as [attrs|]; [|reflexivity].
    destruct (bool_decide (attrs = ∅)); [reflexivity|].
    destruct (truthy (attrs !! "timezone")) as [ptz|];
      destruct (parent_bounds fromisoformat attrs) as [[ps pe]|]; cbv beta iota zeta;
      try reflexivity;
      destruct (_ <=? _) eqn:Hle; cbv beta iota zeta; f_equal;
      destruct st; record_setters.
  - rewrite !update_root by exact Hc.
    destruct (root_window cfg (root_tz zoneinfo cfg dtz) sun now) as [[su eu]|];
      cbv beta iota zeta; f_equal; destruct st; record_setters.
Qed.

(** A window the root logic records ends after [now] when the forward search
    stops before its cap. *)
Lemma root_window_after_now (cfg : config) (tz : tzinfo) (sun : option sun_callback)
    (now : Z) (w0 : Z * Z) (ref : Z) (w : Z * Z) (s e : Z) :
  get_window cfg tz sun (local_date tz now) = Some w0 ->
  search_of cfg tz sun now w0 = Some (ref, w) ->
  ref - local_date tz now < 365 ->
  root_window cfg tz sun now = Some (s, e) -> now < e.
Proof.
  intros Hw Hs Hr.
  destruct (forward_search_spec cfg tz sun now SEARCH_BOUND _ w0 ref w Hw Hs)
    as (_ & _ & _ & Hlt).
  change (Z.of_nat SEARCH_BOUND) with 365 in Hlt. specialize (Hlt Hr).
  rewrite (root_window_unfold cfg tz sun now w0 Hw), Hs. destruct w as [s1 e1].
  cbn [snd] in Hlt.
  destruct (now <? s1).
  - destruct (get_window cfg tz sun (ref - 1)) as [[ps pe]|]; [|discriminate].
    destruct ((ps <=? now) && (now <? pe)) eqn:Hin; intros Hx; injection Hx as <- <-.
    + apply andb_true_iff in Hin as [_ Hin]. apply Z.ltb_lt in Hin. exact Hin.
    + exact Hlt.
  - intros Hx; injection Hx as <- <-. exact Hlt.
Qed.

Lemma reschedule_success (sn : sensor) (now : Z) (dtz : tzinfo) (sun : sun_callback)
    (states : string -> option (gmap string attr_value)) (w : wrapper)
    (p : option (gmap string string)) :
  parent_input sn states = Some p ->
  fst (update_boundaries zoneinfo fromisoformat (s_cfg sn) now dtz (Some sun) p (w_core w)) = true ->
  update_and_reschedule zoneinfo fromisoformat isoformat isoformat_in sn now dtz sun states w =
  let st' := snd (update_boundaries zoneinfo fromisoformat (s_cfg sn) now dtz (Some sun) p (w_core w)) in
  mk_wrapper st' (next_update_utc st')
    (Some (extra_state_attributes isoformat isoformat_in sn dtz st')).
Proof.
  intros Hp Hok. unfold update_and_reschedule. rewrite Hp.
  destruct (update_boundaries zoneinfo fromisoformat (s_cfg sn) now dtz (Some sun) p (w_core w))
    as [ok st'] eqn:Hu.
  cbn [fst] in Hok. subst ok. reflexivity.
Qed.

Lemma reschedule_failure (sn : sensor) (now : Z) (dtz : tzinfo) (sun : sun_callback)
    (states : string -> option (gmap string attr_value)) (w : wrapper)
    (p : option (gmap string string)) :
  parent_input sn states = Some p ->
  fst (update_boundaries zoneinfo fromisoformat (s_cfg sn) now dtz (Some sun) p (w_core w)) = false ->
  update_and_reschedule zoneinfo fromisoformat isoformat isoformat_in sn now dtz sun states w =
  mk_wrapper (snd (update_boundaries zoneinfo fromisoformat (s_cfg sn) now dtz (Some sun) p (w_core w)))
    (w_unsub_update w) (w_written w).
Proof.
  intros Hp Hok. unfold update_and_reschedule. rewrite Hp.
  destruct (update_boundaries zoneinfo fromisoformat (s_cfg sn) now dtz (Some sun) p (w_core w))
    as [ok st'] eqn:Hu.
  cbn [fst] in Hok. subst ok. reflexivity.
Qed.

(** X1: [extra_state_attributes] is [None] exactly while one of the three
    instants is unset, in particular before the first calculation; after a
    successful core update it is a dictionary whose UTC entries are the
    isoformat strings of the new start, end and next update. *)
Theorem attributes_after_update (sn : sensor) (ltz : tzinfo) (st : state)
    (now : Z) (dtz : tzinfo) (sun : option sun_callback)
    (parent : option (gmap string string)) :
  (extra_state_attributes isoformat isoformat_in sn ltz st = None <->
   calculated_start_utc st = None \/ calculated_end_utc st = None \/ next_update_utc st = None) /\
  extra_state_attributes isoformat isoformat_in sn ltz (init_state (s_cfg sn)) = None /\
  (fst (update_boundaries zoneinfo fromisoformat (s_cfg sn) now dtz sun parent st) = true ->
   let st' := snd (update_boundaries zoneinfo fromisoformat (s_cfg sn) now dtz sun parent st) in
   exists s e n pub,
     calculated_start_utc st' = Some s /\ calculated_end_utc st' = Some e /\
     next_update_utc st' = Some n /\
     extra_state_attributes isoformat isoformat_in sn ltz st' = Some pub /\
     pub !! "start_time_utc" = Some (AStr (isoformat s)) /\
     pub !! "end_time_utc" = Some (AStr (isoformat e)) /\
     pub !! "next_update_utc" = Some (AStr (isoformat n))).
Proof.
  split; [|split].
  - unfold extra_state_attributes.
    destruct (calculated_start_utc st), (calculated_end_utc st), (next_update_utc st);
      split; intros Hx;
      first [ discriminate | reflexivity | (left; reflexivity)
            | (right; left; reflexivity) | (right; right; reflexivity)
            | (destruct Hx as [? | [? | ?]]; discriminate) ].
  - reflexivity.
  - intros Hok st'.
    destruct (update_success_shape zoneinfo fromisoformat _ _ _ _ _ _ Hok)
      as (s & e & Hs & He & Heq).
    fold st' in Hs, He, Heq.
    assert (next_update_utc st' = Some (if now <? s then s else if now <? e then e else s + DAY))
      as Hn by (rewrite Heq; apply next_update_of_cnu; assumption).
    destruct (esa_of_some sn ltz st' _ _ _ Hs He Hn) as (pub & Hpub & H1 & H2 & H3).
    exists s, e, (if now <? s then s else if now <? e then e else s + DAY), pub. auto 7.
Qed.

(** X2: a child fed the attributes its parent publishes reads the parent's
    boundaries back (when [fromisoformat] inverts [isoformat] on them),
    inherits the published timezone name ([Default (System)] when the parent
    has none), sets [anchor + offset] for both ends and succeeds iff
    [end > start]; with the default references and zero offsets it copies
    the parent's window. *)
Theorem child_follows_published_parent (psn : sensor) (ltz : tzinfo) (pst : state)
    (pub : gmap string attr_value) (ps pe : Z) (ccfg : config) (now : Z)
    (dtz : tzinfo) (sun : option sun_callback) (cst : state) :
  extra_state_attributes isoformat isoformat_in psn ltz pst = Some pub ->
  calculated_start_utc pst = Some ps -> calculated_end_utc pst = Some pe ->
  fromisoformat (isoformat ps) = Some ps -> fromisoformat (isoformat pe) = Some pe ->
  is_child ccfg = true ->
  let r := update_boundaries zoneinfo fromisoformat ccfg now dtz sun (Some (str_view pub)) cst in
  let s := anchor (start_ref ccfg) ps pe + start_offset ccfg in
  let e := anchor (end_ref ccfg) ps pe + end_offset ccfg in
  parent_bounds fromisoformat (str_view pub) = Some (ps, pe) /\
  resolved_timezone_str (snd r) =
    Some (or_default (resolved_timezone_str pst) "Default (System)") /\
  calculated_start_utc (snd r) = Some s /\ calculated_end_utc (snd r) = Some e /\
  (fst r = true <-> s < e) /\
  (start_ref ccfg = Some "start" -> end_ref ccfg = Some "end" ->
   start_offset ccfg = 0 -> end_offset ccfg = 0 -> s = ps /\ e = pe).
Proof.
  intros Hpub Hps Hpe Hfs Hfe Hc r s e.
  destruct (esa_some _ _ _ _ Hpub) as (s' & e' & n & Hs' & He' & _ & Hst & Hen & _ & _ & Htz).
  rewrite Hps in Hs'. injection Hs' as <-. rewrite Hpe in He'. injection He' as <-.
  assert (parent_bounds fromisoformat (str_view pub) = Some (ps, pe)) as Hb.
  { unfold parent_bounds. rewrite (str_view_lookup_str _ _ _ Hst), (str_view_lookup_str _ _ _ Hen).
    rewrite Hfs, Hfe. reflexivity. }
  assert (truthy (str_view pub !! "timezone") =
          Some (or_default (resolved_timezone_str pst) "Default (System)")) as Ht.
  { rewrite (str_view_lookup_str _ _ _ Htz). apply or_default_truthy. discriminate. }
  split; [exact Hb|].
  subst r s e. unfold update_boundaries, anchor.
  rewrite Hc, (parent_bounds_nonempty fromisoformat _ _ Hb), Ht, Hb.
  cbv beta iota zeta.
  set (s := (if bool_decide (start_ref ccfg = Some "start") then ps else pe) + start_offset ccfg).
  set (e := (if bool_decide (end_ref ccfg = Some "start") then ps else pe) + end_offset ccfg).
  assert (start_ref ccfg = Some "start" -> end_ref ccfg = Some "end" ->
          start_offset ccfg = 0 -> end_offset ccfg = 0 -> s = ps /\ e = pe) as Hdef.
  { intros Hr1 Hr2 Ho1 Ho2. subst s e. rewrite Hr1, Hr2, Ho1, Ho2.
    rewrite bool_decide_eq_true_2 by reflexivity.
    rewrite bool_decide_eq_false_2 by discriminate. lia. }
  destruct (e <=? s) eqn:Hes; cbn [fst snd].
  - apply Z.leb_le in Hes. do 3 (split; [reflexivity|]).
    split; [split; intros Hx; first [discriminate | lia] | exact Hdef].
  - apply Z.leb_gt in Hes.
    rewrite (proj1 (cnu_bounds _ _)), (proj1 (proj2 (cnu_bounds _ _))),
      (proj2 (proj2 (cnu_bounds _ _))).
    do 3 (split; [reflexivity|]).
    split; [split; intros; first [reflexivity | lia] | exact Hdef].
Qed.



(** X5: after a successful core update exactly one timer is pending, at the
    new [next_update_utc] (which is set), and the written state carries the
    attributes dictionary (never [None]) with that instant as
    [next_update_utc]. *)
Theorem successful_update_reschedules (sn : sensor) (now : Z) (dtz : tzinfo) (sun : sun_callback)
    (states : string -> option (gmap string attr_value)) (w : wrapper)
    (p : option (gmap string string)) :
  parent_input sn states = Some p ->
  fst (update_boundaries zoneinfo fromisoformat (s_cfg sn) now dtz (Some sun) p (w_core w)) = true ->
  let w' := update_and_reschedule zoneinfo fromisoformat isoformat isoformat_in sn now dtz sun states w in
  w_core w' = snd (update_boundaries zoneinfo fromisoformat (s_cfg sn) now dtz (Some sun) p (w_core w)) /\
  exists n pub, next_update_utc (w_core w') = Some n /\ w_unsub_update w' = Some n /\
    w_written w' = Some (Some pub) /\
    extra_state_attributes isoformat isoformat_in sn dtz (w_core w') = Some pub /\
    pub !! "next_update_utc" = Some (AStr (isoformat n)).
Proof.
  intros Hp Hok w'. subst w'. rewrite (reschedule_success _ _ _ _ _ _ _ Hp Hok). cbv zeta.
  cbn [w_core w_unsub_update w_written]. split; [reflexivity|].
  destruct (update_success_shape zoneinfo fromisoformat _ _ _ _ _ _ Hok)
    as (s & e & Hs & He & Heq).
  set (st' := snd (update_boundaries zoneinfo fromisoformat (s_cfg sn) now dtz (Some sun) p (w_core w)))
    in *.
  assert (next_update_utc st' = Some (if now <? s then s else if now <? e then e else s + DAY))
    as Hn by (rewrite Heq; apply next_update_of_cnu; assumption).
  destruct (esa_of_some sn dtz st' _ _ _ Hs He Hn) as (pub & Hpub & _ & _ & H3).
  exists (if now <? s then s else if now <? e then e else s + DAY), pub.
  rewrite Hn, Hpub. auto.
Qed.

(** X6: a root sensor whose forward search stops before its 365-day cap
    schedules its next run strictly after [now] when the update succeeds. *)
Theorem root_timer_after_now (sn : sensor) (now : Z) (dtz : tzinfo) (sun : sun_callback)
    (states : string -> option (gmap string attr_value)) (w : wrapper)
    (w0 : Z * Z) (ref : Z) (win : Z * Z) :
  is_child (s_cfg sn) = false ->
  let tz := root_tz zoneinfo (s_cfg sn) dtz in
  get_window (s_cfg sn) tz (Some sun) (local_date tz now) = Some w0 ->
  search_of (s_cfg sn) tz (Some sun) now w0 = Some (ref, win) ->
  ref - local_date tz now < 365 ->
  fst (update_boundaries zoneinfo fromisoformat (s_cfg sn) now dtz (Some sun) None (w_core w)) = true ->
  exists n,
    w_unsub_update (update_and_reschedule zoneinfo fromisoformat isoformat isoformat_in
                      sn now dtz sun states w) = Some n /\ now < n.
Proof.
  intros Hc tz Hw Hs Hr Hok.
  assert (parent_input sn states = Some None) as Hp by (unfold parent_input; rewrite Hc; reflexivity).
  rewrite (reschedule_success _ _ _ _ _ _ _ Hp Hok). cbv zeta. cbn [w_unsub_update].
  revert Hok. rewrite update_root by exact Hc. fold tz.
  destruct (root_window (s_cfg sn) tz (Some sun) now) as [[su eu]|] eqn:Hrw;
    cbn [fst snd]; [intros _ | discriminate].
  pose proof (root_window_after_now _ _ _ _ _ _ _ _ _ Hw Hs Hr Hrw) as Heu.
  destruct (assigned_fields now su eu (set_tz_str (Some (root_tz_name (s_cfg sn) dtz)) (w_core w)))
    as [H1 H2].
  rewrite (proj1 (cnu_bounds _ _)) in H1. rewrite (proj1 (proj2 (cnu_bounds _ _))) in H2.
  rewrite (next_update_of_cnu now su eu _ H1 H2).
  eexists. split; [reflexivity|]. zcase; lia.
Qed.

(** X7: a child whose derived window [(s, e)] is valid but already over,
    with [s + 24h <= now] (a parent window more than a day old), schedules
    its timer at [s + 24h], an instant that is not after [now]. *)
Theorem stale_parent_timer_in_past (sn : sensor) (now : Z) (dtz : tzinfo) (sun : sun_callback)
    (states : string -> option (gmap string attr_value)) (w : wrapper)
    (pid : string) (attrs : gmap string attr_value) (ps pe : Z) :
  is_child (s_cfg sn) = true ->
  s_parent_entity_id sn = Some pid -> states pid = Some attrs ->
  parent_bounds fromisoformat (str_view attrs) = Some (ps, pe) ->
  let s := anchor (start_ref (s_cfg sn)) ps pe + start_offset (s_cfg sn) in
  let e := anchor (end_ref (s_cfg sn)) ps pe + end_offset (s_cfg sn) in
  s < e -> e <= now -> s + DAY <= now ->
  w_unsub_update (update_and_reschedule zoneinfo fromisoformat isoformat isoformat_in
                    sn now dtz sun states w) = Some (s + DAY) /\ s + DAY <= now.
Proof.
  intros Hc Hpid Hst Hb s e Hse Hen Hday.
  assert (parent_input sn states = Some (Some (str_view attrs))) as Hp.
  { unfold parent_input. rewrite Hc, Hpid, Hst.
    assert (attrs !! "start_time_utc" <> None) as Hk.
    { unfold parent_bounds in Hb. destruct (str_view attrs !! "start_time_utc") eqn:Hx;
        [|discriminate]. exact (str_view_lookup_some _ _ _ Hx). }
    rewrite bool_decide_eq_false_2 by exact Hk. reflexivity. }
  assert (fst (update_boundaries zoneinfo fromisoformat (s_cfg sn) now dtz (Some sun)
                 (Some (str_view attrs)) (w_core w)) = true /\
          snd (update_boundaries zoneinfo fromisoformat (s_cfg sn) now dtz (Some sun)
                 (Some (str_view attrs)) (w_core w)) =
          calculate_next_update now (set_end (Some e) (set_start (Some s)
            (match truthy (str_view attrs !! "timezone") with
             | Some z => set_tz_str (Some z) (w_core w)
             | None => w_core w end)))) as [Hok Hsnd].
  { unfold update_boundaries. rewrite Hc, (parent_bounds_nonempty fromisoformat _ _ Hb), Hb.
    cbv beta iota zeta. fold (anchor (start_ref (s_cfg sn)) ps pe) (anchor (end_ref (s_cfg sn)) ps pe).
    fold s e. replace (e <=? s) with false by (symmetry; apply Z.leb_gt; exact Hse).
    destruct (truthy (str_view attrs !! "timezone")); split; reflexivity. }
  rewrite (reschedule_success _ _ _ _ _ _ _ Hp Hok). cbv zeta. cbn [w_unsub_update].
  rewrite Hsnd. destruct (assigned_fields now s e
    (match truthy (str_view attrs !! "timezone") with
     | Some z => set_tz_str (Some z) (w_core w) | None => w_core w end)) as [H1 H2].
  rewrite (proj1 (cnu_bounds _ _)) in H1. rewrite (proj1 (proj2 (cnu_bounds _ _))) in H2.
  rewrite (next_update_of_cnu now s e _ H1 H2).
  replace (now <? s) with false by (symmetry; apply Z.ltb_ge; lia).
  replace (now <? e) with false by (symmetry; apply Z.ltb_ge; lia).
  split; [reflexivity | exact Hday].
Qed.

(** X8: running [_update_and_reschedule] a second time with the same clock,
    default zone, sun callback and parent states changes nothing: same core
    fields, same pending timer, same written state. *)
Theorem reschedule_idempotent (sn : sensor) (now : Z) (dtz : tzinfo) (sun : sun_callback)
    (states : string -> option (gmap string attr_value)) (w : wrapper) :
  let step := update_and_reschedule zoneinfo fromisoformat isoformat isoformat_in
                sn now dtz sun states in
  step (step w) = step w.
Proof.
  cbv zeta. destruct (parent_input sn states) as [p|] eqn:Hp.
  2:{ unfold update_and_reschedule. rewrite !Hp. reflexivity. }
  destruct (fst (update_boundaries zoneinfo fromisoformat (s_cfg sn) now dtz (Some sun) p (w_core w)))
    eqn:Hok.
  - rewrite (reschedule_success _ _ _ _ _ _ _ Hp Hok). cbv zeta.
    rewrite (reschedule_success _ _ _ _ _ _ _ Hp); cbn [w_core]; rewrite update_twice;
      [reflexivity | exact Hok].
  - rewrite (reschedule_failure _ _ _ _ _ _ _ Hp Hok).
    rewrite (reschedule_failure _ _ _ _ _ _ _ Hp); cbn [w_core w_unsub_update w_written];
      rewrite ?update_twice; [reflexivity | exact Hok].
Qed.

End Extras.

Lemma gvp_cons (entry : reg_entry) (reg : list reg_entry)
    (states : string -> option (gmap string attr_value)) :
  get_valid_parents (entry :: reg) states =
  ((if String.eqb (re_platform entry) DOMAIN then
     match states (re_entity_id entry) with
     | Some attrs =>
         if bool_decide (attrs !! "is_child" = Some (ABool false)) then
           [(re_entity_id entry,
             match attrs !! "friendly_name" with
             | Some v => if attr_truthy v then v else AStr (re_entity_id entry)
             | None => AStr (re_entity_id entry)
             end)]
         else []
     | None => []
     end
   else []) ++ get_valid_parents reg states)%list.
Proof. reflexivity. Qed.

Lemma in_valid_parents (reg : list reg_entry)
    (states : string -> option (gmap string attr_value)) (v : string) (l : attr_value) :
  In (v, l) (get_valid_parents reg states) <->
  exists entry attrs, In entry reg /\ re_entity_id entry = v /\ re_platform entry = DOMAIN /\
    states v = Some attrs /\ attrs !! "is_child" = Some (ABool false) /\
    l = match attrs !! "friendly_name" with
        | Some x => if attr_truthy x then x else AStr v
        | None => AStr v
        end.
Proof.
  induction reg as [|en reg IH].
  - split; [intros [] | intros (entry & attrs & [] & _)].
  - rewrite gvp_cons, in_app_iff, IH. split.
    + intros [Hh | (entry & attrs & Hin & Hrest)].
      * destruct (String.eqb (re_platform en) DOMAIN) eqn:Ep; [|destruct Hh].
        apply String.eqb_eq in Ep.
        destruct (states (re_entity_id en)) as [attrs|] eqn:Es; [|destruct Hh].
        destruct (bool_decide (attrs !! "is_child" = Some (ABool false))) eqn:Eb;
          [|destruct Hh].
        apply bool_decide_eq_true_1 in Eb.
        destruct Hh as [Hh | []]. injection Hh as <- <-.
        exists en, attrs. split; [left; reflexivity|].
        repeat split; first [reflexivity | assumption].
      * exists entry, attrs. split; [right; exact Hin | exact Hrest].
    + intros (entry & attrs & [<- | Hin] & Hid & Hpl & Hs & Hic & Hl).
      * left. subst v. rewrite Hpl, String.eqb_refl.
        rewrite Hs, bool_decide_eq_true_2 by exact Hic. left. rewrite Hl. reflexivity.
      * right. exists entry, attrs. repeat split; assumption.
Qed.

(** X9: [_get_valid_parents] offers exactly the registry entries of this
    platform whose current state has [is_child] equal to [False], labelled
    with their truthy [friendly_name] or else their entity id; an entity with
    no state, or whose attributes have no [is_child] key (a sensor that has
    not calculated yet), is never offered. *)
Theorem valid_parents_exact (reg : list reg_entry)
    (states : string -> option (gmap string attr_value)) (v : string) (l : attr_value) :
  (In (v, l) (get_valid_parents reg states) <->
   exists entry attrs, In entry reg /\ re_entity_id entry = v /\ re_platform entry = DOMAIN /\
     states v = Some attrs /\ attrs !! "is_child" = Some (ABool false) /\
     l = match attrs !! "friendly_name" with
         | Some x => if attr_truthy x then x else AStr v
         | None => AStr v
         end) /\
  ((states v = None \/ exists attrs, states v = Some attrs /\ attrs !! "is_child" = None) ->
   ~ In (v, l) (get_valid_parents reg states)).
Proof.
  split; [apply in_valid_parents|].
  intros Hno Hin. apply in_valid_parents in Hin as (entry & attrs & _ & _ & _ & Hs & Hic & _).
  destruct Hno as [Hn | (attrs' & Hs' & Hn)]; [congruence|].
  rewrite Hs in Hs'. injection Hs' as <-. congruence.
Qed.



Section Selector.

Variable isoformat : Z -> string.
Variable isoformat_in : tzinfo -> Z -> string.

(** X10: an entity of this platform whose state carries the attributes a
    sensor publishes (possibly with more, such as [friendly_name]) is offered
    as a parent exactly when that sensor is a root sensor. *)
Theorem published_sensor_offered (reg : list reg_entry)
    (states : string -> option (gmap string attr_value)) (entry : reg_entry)
    (attrs : gmap string attr_value) (psn : sensor) (ltz : tzinfo) (pst : state)
    (pub : gmap string attr_value) :
  In entry reg -> re_platform entry = DOMAIN ->
  states (re_entity_id entry) = Some attrs ->
  extra_state_attributes isoformat isoformat_in psn ltz pst = Some pub -> pub ⊆ attrs ->
  ((exists l, In (re_entity_id entry, l) (get_valid_parents reg states)) <->
   is_child (s_cfg psn) = false).
Proof.
  intros Hin Hpl Hs Hpub Hsub.
  destruct (esa_some isoformat isoformat_in _ _ _ _ Hpub) as (s & e & n & _ & _ & _ & _ & _ & _ & Hic & _).
  pose proof (lookup_weaken _ _ _ _ Hic Hsub) as Hic'.
  split.
  - intros (l & Hl). apply in_valid_parents in Hl as (entry' & attrs' & _ & _ & _ & Hs' & Hf & _).
    rewrite Hs in Hs'. injection Hs' as <-. rewrite Hic' in Hf.
    injection Hf as Hf. exact Hf.
  - intros Hc. rewrite Hc in Hic'. eexists. apply in_valid_parents.
    exists entry, attrs. repeat split; first [exact Hin | exact Hpl | exact Hs | exact Hic' | reflexivity].
Qed.

End Selector.

(** ** Wrapper runs *)

(** The child of a 09:00 -> 17:00 root sensor, fed the root's published
    attributes, copies its window and inherits [Default (System)]. *)
Lemma child_follows_published_parent_witness :
  let pst := mk_state (Some (H 9)) (Some (H 17)) (Some (H 17)) None in
  let ccfg := child_cfg "start" 0 "end" 0 in
  let pub := match extra_state_attributes iso_table iso_table_in root_sensor UTC pst with
             | Some m => m | None => ∅ end in
  let r := update_boundaries no_zones iso_hhmm ccfg (H 10) UTC None (Some (str_view pub))
             (init_state ccfg) in
  extra_state_attributes iso_table iso_table_in root_sensor UTC pst = Some pub /\
  fst r = true /\ calculated_start_utc (snd r) = Some (H 9) /\
  calculated_end_utc (snd r) = Some (H 17) /\
  resolved_timezone_str (snd r) = Some "Default (System)".
Proof.
  intros pst ccfg pub r.
  assert (extra_state_attributes iso_table iso_table_in root_sensor UTC pst = Some pub) as Hpub
    by (vm_compute; reflexivity).
  destruct (child_follows_published_parent no_zones iso_hhmm iso_table iso_table_in
              root_sensor UTC pst pub (H 9) (H 17) ccfg (H 10) UTC None (init_state ccfg)
              Hpub eq_refl eq_refl ltac:(vm_compute; reflexivity)
              ltac:(vm_compute; reflexivity) eq_refl)
    as (_ & Htz & Hs & He & Hok & Hdef).
  destruct (Hdef eq_refl eq_refl eq_refl eq_refl) as [E1 E2].
  split; [exact Hpub|].
  split; [apply Hok; vm_compute; reflexivity|].
  split; [etransitivity; [exact Hs | f_equal; exact E1]|].
  split; [etransitivity; [exact He | f_equal; exact E2]|].
  exact Htz.
Defined.



(** The 09:00 -> 17:00 root sensor at 10:00 schedules 17:00 and publishes it. *)
Lemma successful_update_reschedules_witness :
  let sn := root_sensor in
  let w' := update_and_reschedule no_zones iso_hhmm iso_table iso_table_in sn (H 10) UTC
              no_sun (fun _ => None) (init_wrapper sn) in
  parent_input sn (fun _ => None) = Some None /\
  fst (update_boundaries no_zones iso_hhmm (s_cfg sn) (H 10) UTC (Some no_sun) None
         (init_state (s_cfg sn))) = true /\
  w_unsub_update w' = Some (H 17) /\
  exists pub, w_written w' = Some (Some pub) /\
    pub !! "next_update_utc" = Some (AStr "17:00").
Proof.
  intros sn w'.
  assert (parent_input sn (fun _ => None) = Some None) as Hp by reflexivity.
  assert (fst (update_boundaries no_zones iso_hhmm (s_cfg sn) (H 10) UTC (Some no_sun) None
                 (init_state (s_cfg sn))) = true) as Hok by (vm_compute; reflexivity).
  destruct (successful_update_reschedules no_zones iso_hhmm iso_table iso_table_in
              sn (H 10) UTC no_sun (fun _ => None) (init_wrapper sn) None Hp Hok)
    as (_ & n & pub & Hn & Ht & Hw & _ & Hpn).
  assert (n = H 17) as ->.
  { revert Hn. vm_compute. intros Hn. injection Hn as <-. reflexivity. }
  split; [exact Hp|]. split; [exact Hok|]. split; [exact Ht|].
  exists pub. split; [exact Hw | exact Hpn].
Defined.

(** The 09:00 -> 17:00 root sensor at 10:00: its search stops at once and the
    timer is at 17:00, after [now]. *)
Lemma root_timer_after_now_witness :
  let sn := root_sensor in
  let tz := root_tz no_zones (s_cfg sn) UTC in
  is_child (s_cfg sn) = false /\
  get_window (s_cfg sn) tz (Some no_sun) (local_date tz (H 10)) = Some (H 9, H 17) /\
  search_of (s_cfg sn) tz (Some no_sun) (H 10) (H 9, H 17) = Some (0, (H 9, H 17)) /\
  0 - local_date tz (H 10) < 365 /\
  fst (update_boundaries no_zones iso_hhmm (s_cfg sn) (H 10) UTC (Some no_sun) None
         (init_state (s_cfg sn))) = true /\
  exists n,
    w_unsub_update (update_and_reschedule no_zones iso_hhmm iso_table iso_table_in
                      sn (H 10) UTC no_sun (fun _ => None) (init_wrapper sn)) = Some n /\
    H 10 < n.
Proof.
  intros sn tz.
  assert (is_child (s_cfg sn) = false) as Hc by reflexivity.
  assert (get_window (s_cfg sn) tz (Some no_sun) (local_date tz (H 10)) = Some (H 9, H 17))
    as Hw by (vm_compute; reflexivity).
  assert (search_of (s_cfg sn) tz (Some no_sun) (H 10) (H 9, H 17) = Some (0, (H 9, H 17)))
    as Hs by (vm_compute; reflexivity).
  assert (0 - local_date tz (H 10) < 365) as Hr by (vm_compute; reflexivity).
  assert (fst (update_boundaries no_zones iso_hhmm (s_cfg sn) (H 10) UTC (Some no_sun) None
                 (init_state (s_cfg sn))) = true) as Hok by (vm_compute; reflexivity).
  do 5 (split; [assumption|]).
  exact (root_timer_after_now no_zones iso_hhmm iso_table iso_table_in sn (H 10) UTC no_sun
           (fun _ => None) (init_wrapper sn) _ _ _ Hc Hw Hs Hr Hok).
Defined.

(** A child of a parent still showing day 0's 09:00 -> 17:00 window, run on
    day 2, schedules 09:00 of day 1: already in the past. *)
Lemma stale_parent_timer_in_past_witness :
  let sn := child_sensor in
  let states := states_of parent_attrs_9_17 in
  is_child (s_cfg sn) = true /\
  states "binary_sensor.parent" = Some parent_attrs_9_17 /\
  parent_bounds iso_hhmm (str_view parent_attrs_9_17) = Some (H 9, H 17) /\
  w_unsub_update (update_and_reschedule no_zones iso_hhmm iso_table iso_table_in
                    sn (2 * DAY) UTC no_sun states (init_wrapper sn)) = Some (H 9 + DAY) /\
  H 9 + DAY <= 2 * DAY.
Proof.
  intros sn states.
  assert (parent_bounds iso_hhmm (str_view parent_attrs_9_17) = Some (H 9, H 17)) as Hb
    by (vm_compute; reflexivity).
  destruct (stale_parent_timer_in_past no_zones iso_hhmm iso_table iso_table_in sn (2 * DAY)
              UTC no_sun states (init_wrapper sn) "binary_sensor.parent" parent_attrs_9_17
              (H 9) (H 17) eq_refl eq_refl eq_refl Hb
              ltac:(vm_compute; reflexivity) ltac:(vm_compute; discriminate)
              ltac:(vm_compute; discriminate)) as [Ht Hle].
  split; [reflexivity|]. split; [reflexivity|]. split; [exact Hb|].
  split; [exact Ht | exact Hle].
Defined.

(** A root sensor's published state, with HA's [friendly_name] added, is
    offered as a parent under that label. *)
Lemma published_sensor_offered_witness :
  let pst := mk_state (Some (H 9)) (Some (H 17)) (Some (H 17)) None in
  let pub := match extra_state_attributes iso_table iso_table_in root_sensor UTC pst with
             | Some m => m | None => ∅ end in
  let attrs := <["friendly_name" := AStr "Office hours"]> pub in
  let entry := mk_reg_entry "binary_sensor.parent" DOMAIN in
  let states := states_of attrs in
  states (re_entity_id entry) = Some attrs /\
  extra_state_attributes iso_table iso_table_in root_sensor UTC pst = Some pub /\
  pub ⊆ attrs /\
  (exists l, In (re_entity_id entry, l) (get_valid_parents [entry] states)) /\
  get_valid_parents [entry] states = [("binary_sensor.parent", AStr "Office hours")].
Proof.
  intros pst pub attrs entry states.
  assert (extra_state_attributes iso_table iso_table_in root_sensor UTC pst = Some pub) as Hpub
    by (vm_compute; reflexivity).
  assert (pub ⊆ attrs) as Hsub.
  { apply insert_subseteq. vm_compute. reflexivity. }
  assert (states (re_entity_id entry) = Some attrs) as Hs by reflexivity.
  pose proof (published_sensor_offered iso_table iso_table_in [entry] states entry attrs
                root_sensor UTC pst pub (or_introl eq_refl) eq_refl Hs Hpub Hsub) as Hiff.
  split; [exact Hs|]. split; [exact Hpub|]. split; [exact Hsub|].
  split; [apply Hiff; reflexivity|].
  vm_compute. reflexivity.
Defined.
